(** * StageInspector: a shallow embedding of src/index.js

    The inspector walks a CreateJS stage (a tree of display objects), builds
    an overlay of annotation primitives for the objects that pass a filter,
    and dumps or searches the tree from the console.

    Conventions of the embedding:
    - a display object is a node of a finitely branching tree; [ref] is the
      identity of the JavaScript object (what [===] compares on objects);
    - JavaScript numbers that the modelled code compares or counts (ids,
      nesting levels, frame indices, line heights) are integers [Z];
    - a fault (a thrown TypeError) is an explicit outcome;
    - an annotation primitive is recorded with the [name] the source gives it
      and its colour; layout coordinates and label texts are floating-point
      formatting and are not represented. *)

From Stdlib Require Import ZArith List String Ascii Bool Lia DecimalString.
From stdpp Require Import base option list strings gmap.
Import ListNotations.

Local Open Scope string_scope.
Local Open Scope list_scope.
Local Open Scope Z_scope.

(** ** JavaScript values held in object fields *)

Inductive value : Type :=
| VUndefined
| VNull
| VBool (b : bool)
| VNum (n : Z)
| VStr (s : string)
| VObject.

(** An integer in a string concatenation. *)
Definition show_Z (n : Z) : string := NilZero.string_of_int (Z.to_int n).

(** String conversion as done by [+] with a string operand. *)
Definition to_string (v : value) : string :=
  match v with
  | VUndefined => "undefined"
  | VNull => "null"
  | VBool true => "true"
  | VBool false => "false"
  | VNum n => show_Z n
  | VStr s => s
  | VObject => "[object Object]"
  end.

(** [v instanceof Object] *)
Definition instanceof_Object (v : value) : bool :=
  match v with VObject => true | _ => false end.

(** [Number.isInteger(v)] *)
Definition Number_isInteger (v : value) : bool :=
  match v with VNum _ => true | _ => false end.

(** [String.prototype.toLowerCase] on the ASCII letters. *)
Definition lower_ascii (c : ascii) : ascii :=
  let n := nat_of_ascii c in
  if ((65 <=? n) && (n <=? 90))%nat then ascii_of_nat (n + 32) else c.

Fixpoint toLowerCase (s : string) : string :=
  match s with
  | EmptyString => EmptyString
  | String c s' => String (lower_ascii c) (toLowerCase s')
  end.

(** ** The scene graph *)

Record Rectangle : Type := mkRectangle { rx : Z; ry : Z; rwidth : Z; rheight : Z }.

(** What a call of [obj.getBounds()] does: it returns a rectangle or null, or
    it throws. *)
Inductive boundsOutcome : Type :=
| Returns (r : option Rectangle)
| Throws.

(** A display object.  [fields] lists the own enumerable fields in the order
    of [Object.keys]; [id] and [name] are kept apart because the source reads
    them by name.  [children = None] is a display object without a [children]
    array. *)
Local Unset Elimination Schemes.

Inductive DisplayObject : Type := mkDisplayObject {
  ref : nat;
  className : string;
  id : Z;
  name : option string;
  fields : list (string * value);
  children : option (list DisplayObject);
  getBounds : boundsOutcome;
  frameBounds : option (list (option Rectangle));
  currentFrame : value
}.

Local Set Elimination Schemes.

Section DisplayObject_induction.
Variable P : DisplayObject -> Prop.
Hypothesis P_leaf : forall r c i n f b fb cf,
    P (mkDisplayObject r c i n f None b fb cf).
Hypothesis P_node : forall r c i n f cs b fb cf,
    Forall P cs -> P (mkDisplayObject r c i n f (Some cs) b fb cf).

Fixpoint DisplayObject_ind (obj : DisplayObject) : P obj :=
  match obj with
  | mkDisplayObject r c i n f None b fb cf => P_leaf r c i n f b fb cf
  | mkDisplayObject r c i n f (Some cs) b fb cf =>
      P_node r c i n f cs b fb cf
        ((fix all (l : list DisplayObject) : Forall P l :=
            match l with
            | [] => List.Forall_nil P
            | x :: l' => @List.Forall_cons _ P x l' (DisplayObject_ind x) (all l')
            end) cs)
  end.
End DisplayObject_induction.

(** [obj.children] read as a list: an absent array has no element. *)
Definition childList (obj : DisplayObject) : list DisplayObject :=
  match children obj with Some cs => cs | None => [] end.

(** [a === b] on two display objects. *)
Definition same_object (a b : DisplayObject) : bool := Nat.eqb (ref a) (ref b).

(** [obj.name === name] for a string [name]. *)
Definition has_name (nm : string) (obj : DisplayObject) : bool :=
  match name obj with
  | Some s => String.eqb s nm
  | None => false
  end.

(** [obj[key]] *)
Definition get (obj : DisplayObject) (key : string) : value :=
  if String.eqb key "id" then VNum (id obj)
  else if String.eqb key "name" then
    match name obj with Some s => VStr s | None => VNull end
  else
    match List.find (fun kv => String.eqb (fst kv) key) (fields obj) with
    | Some kv => snd kv
    | None => VUndefined
    end.

(** [Object.keys(obj)] without [id] and [name], whose place in the
    enumeration the source never observes. *)
Definition keys (obj : DisplayObject) : list string := map fst (fields obj).

(** ** Searching the tree *)

(** [_searchForObject(obj, func)] *)
Fixpoint _searchForObject (func : DisplayObject -> bool) (obj : DisplayObject)
  : option DisplayObject :=
  if func obj then Some obj
  else match children obj with
       | Some cs =>
           (fix loop (rest : list DisplayObject) (back : option DisplayObject) :=
              match rest, back with
              | child :: rest', None => loop rest' (_searchForObject func child)
              | _, _ => back
              end) cs None
       | None => None
       end.

(** [_searchForObjects(obj, func)] *)
Fixpoint _searchForObjects (func : DisplayObject -> bool) (obj : DisplayObject)
  : list DisplayObject :=
  if func obj then [] ++ [obj]
  else match children obj with
       | Some cs =>
           (fix loop (rest : list DisplayObject) (back : list DisplayObject) :=
              match rest with
              | child :: rest' => loop rest' (back ++ _searchForObjects func child)
              | [] => back
              end) cs []
       | None => []
       end.

(** Depth-first pre-order: a node, then the subtrees of its children from
    first to last. *)
Fixpoint preorder (obj : DisplayObject) : list DisplayObject :=
  obj :: match children obj with
         | Some cs => flat_map preorder cs
         | None => []
         end.

(** Pre-order in which every node comes with its proper ancestors, nearest
    first. *)
Fixpoint preorder_under (anc : list DisplayObject) (obj : DisplayObject)
  : list (list DisplayObject * DisplayObject) :=
  (anc, obj) :: match children obj with
                | Some cs => flat_map (preorder_under (obj :: anc)) cs
                | None => []
                end.

(** A node that matches and has no match among its proper ancestors. *)
Definition unmatched_path (func : DisplayObject -> bool)
  (p : list DisplayObject * DisplayObject) : bool :=
  func (snd p) && forallb (fun a => negb (func a)) (fst p).

(** The multi-match search in the spec's words: the matches, in pre-order,
    that lie under no other match. *)
Definition findAll_spec (func : DisplayObject -> bool) (root : DisplayObject)
  : list DisplayObject :=
  map snd (List.filter (unmatched_path func) (preorder_under [] root)).

(** ** Filters *)

(** An entry of a filter array: an id, a name or a display object. *)
Inductive entry : Type :=
| ENum (n : Z)
| EStr (s : string)
| EObj (o : DisplayObject).

(** [_isString(obj)]: [typeof obj === 'string'] *)
Definition _isString (e : entry) : bool :=
  match e with EStr _ => true | _ => false end.

(** [_isNumber(obj)]: [Number(obj) === obj && !isNaN(obj)] *)
Definition _isNumber (e : entry) : bool :=
  match e with ENum _ => true | _ => false end.

(** [obj.id === filter] *)
Definition id_is (obj : DisplayObject) (filter : entry) : bool :=
  match filter with ENum n => Z.eqb (id obj) n | _ => false end.

(** [obj.name === filter] *)
Definition name_is (obj : DisplayObject) (filter : entry) : bool :=
  match filter with EStr s => has_name s obj | _ => false end.

(** [obj === filter] *)
Definition object_is (obj : DisplayObject) (filter : entry) : bool :=
  match filter with EObj o => same_object obj o | _ => false end.

(** The assignment to [back] in the body of the loop of [_checkFilters]. *)
Definition filter_test (obj : DisplayObject) (filter : entry) : bool :=
  if _isNumber filter then id_is obj filter
  else if _isString filter then name_is obj filter
  else object_is obj filter.

(** The loop [for (i = 0; i < filters.length && !back; i++)] of
    [_checkFilters], started at index [i] with the entries from [i] on still
    ahead; it yields the final values of [i] and [back]. *)
Fixpoint _checkFilters_for (obj : DisplayObject) (rest : list entry)
  (i : nat) (back : bool) : nat * bool :=
  match rest with
  | filter :: rest' =>
      if negb back then _checkFilters_for obj rest' (S i) (filter_test obj filter)
      else (i, back)
  | [] => (i, back)
  end.

(** [_checkFilters(obj)], with [this._filters] an array. *)
Definition _checkFilters (filters : list entry) (obj : DisplayObject) : bool :=
  snd (_checkFilters_for obj filters 0%nat false).

(** [!this._filters || this._checkFilters(obj)] *)
Definition includeObj (filters : option (list entry)) (obj : DisplayObject) : bool :=
  match filters with
  | None => true
  | Some fs => _checkFilters fs obj
  end.

(** ** Annotation primitives *)

Local Unset Elimination Schemes.

(** What the overlay is made of: shapes, texts and containers, each with the
    [name] the source assigns (none for the info background) and, for shapes
    and texts, the stroke or text colour. *)
Inductive prim : Type :=
| Shape (pname : option string) (stroke : option string)
| Text (pname : option string) (color : option string)
| Container (pname : option string) (pchildren : list prim).

Local Set Elimination Schemes.

(** The [name] of a primitive. *)
Definition pname_of (p : prim) : option string :=
  match p with
  | Shape n _ | Text n _ | Container n _ => n
  end.

(** [container.addChild(child)] on a container of primitives. *)
Definition addChild (container : list prim) (child : prim) : list prim :=
  container ++ [child].

(** [arr[i]] on an array, [None] for [undefined]. *)
Definition array_get {A : Type} (arr : list A) (i : Z) : option A :=
  if i <? 0 then None else nth_error arr (Z.to_nat i).

(** ** The inspector *)

(** The fields of a [StageInspector] and the host state it reaches through
    them: [overlay] is [this._container.children], [drawstart] tells whether
    [this._updateDisplay] is subscribed to the stage's [drawstart] event,
    [lineHeight] is what [getMeasuredLineHeight()] returns for a text of the
    default font. *)
Record StageInspector : Type := mkStageInspector {
  _stage : DisplayObject;
  propFilters : gmap string bool;
  nestColors : list string;
  _container : DisplayObject;
  _updateOnDraw : bool;
  _filters : option (list entry);
  overlay : list prim;
  drawstart : bool;
  lineHeight : Z
}.

(** [this.propFilters[key]] as a condition. *)
Definition propFilter (this : StageInspector) (key : string) : bool :=
  match propFilters this !! key with Some b => b | None => false end.

(** [_getNestColor(nestLevel)] *)
Definition _getNestColor (this : StageInspector) (nestLevel : Z) : option string :=
  if nestLevel >? Z.of_nat (length (nestColors this)) - 1 then
    array_get (nestColors this) (Z.of_nat (length (nestColors this)) - 1)
  else
    array_get (nestColors this) nestLevel.

(** [pre + obj.id], the name of a primitive drawn for [obj]. *)
Definition named (pre : string) (obj : DisplayObject) : option string :=
  Some (pre +:+ show_Z (id obj)).

(** [_displayBounds] *)
Definition _displayBounds (container : list prim) (obj : DisplayObject)
  (nestColor : option string) : list prim :=
  let rect := Shape (named "si_bounds_" obj) nestColor in
  let container := addChild container rect in
  let text := Text (named "si_boundsPos_" obj) nestColor in
  addChild container text.

(** [_displayPos] *)
Definition _displayPos (container : list prim) (obj : DisplayObject)
  (nestColor : option string) : list prim :=
  let shape := Shape (named "si_posMarker_" obj) nestColor in
  let container := addChild container shape in
  let text := Text (named "si_pos_" obj) nestColor in
  addChild container text.

(** [_displayRegPos] *)
Definition _displayRegPos (container : list prim) (obj : DisplayObject)
  (nestColor : option string) : list prim :=
  let shape := Shape (named "si_posMarker_" obj) nestColor in
  let container := addChild container shape in
  let text := Text (named "si_regPosText_" obj) nestColor in
  addChild container text.

(** [_displayWidth] *)
Definition _displayWidth (container : list prim) (obj : DisplayObject)
  (nestColor : option string) : list prim :=
  addChild container (Text (named "si_width_" obj) nestColor).

(** [_displayHeight] *)
Definition _displayHeight (container : list prim) (obj : DisplayObject)
  (nestColor : option string) : list prim :=
  addChild container (Text (named "si_height_" obj) nestColor).

(** The name [_displayMember] gives the line of [member]. *)
Definition memberName (obj : DisplayObject) (member : string) : option string :=
  Some ("si_" +:+ member +:+ "_" +:+ show_Z (id obj)).

(** [_displayParentId]: the grown info container and the new [nextY].  The
    source adds the measured height, a floating-point number, to [nextY];
    here heights are integers, and the theorems on the attachment of the
    panel use only whether [nextY] is zero or positive. *)
Definition _displayParentId (this : StageInspector) (container : list prim)
  (obj : DisplayObject) (nextY : Z) (nestColor : option string) : list prim * Z :=
  let text := Text (named "si_parentId_" obj) nestColor in
  (addChild container text, nextY + lineHeight this).

(** [_displayMember]: the grown info container and the new [nextY], with
    heights as in [_displayParentId]. *)
Definition _displayMember (this : StageInspector) (container : list prim)
  (obj : DisplayObject) (nextY : Z) (member : string) (nestColor : option string)
  : list prim * Z :=
  let text := Text (memberName obj member) nestColor in
  (addChild container text, nextY + lineHeight this).

(** [key.indexOf('_') != 0] *)
Definition not_underscored (key : string) : bool :=
  match key with
  | String c _ => negb (Ascii.eqb c "_"%char)
  | EmptyString => true
  end.

(** [const specialKeys = [ 'id', 'name' ]] *)
Definition specialKeys : list string := ["id"; "name"].

(** [specialKeys.indexOf(key) == -1] *)
Definition not_special (key : string) : bool :=
  negb (existsb (String.eqb key) specialKeys).

(** The body of [for (const key of Object.keys(obj))]. *)
Definition member_step (this : StageInspector) (obj : DisplayObject)
  (nestColor : option string) (acc : list prim * Z) (key : string) : list prim * Z :=
  if not_underscored key && not_special key then
    if propFilter this key && negb (instanceof_Object (get obj key)) then
      _displayMember this (fst acc) obj (snd acc) key nestColor
    else acc
  else acc.

(** [_drawInfoBackground]: it draws into the background shape, the first
    child of the info container. *)
Definition _drawInfoBackground (infoContainer : list prim) : list prim :=
  match infoContainer with
  | Shape n _ :: rest => Shape n (Some "#000000") :: rest
  | other => other
  end.

(** The info container of [obj] as it stands after the loop over the keys,
    with the final [nextY]. *)
Definition infoPanel (this : StageInspector) (obj : DisplayObject)
  (nestColor : option string) : list prim * Z :=
  let infoContainerBackground := Shape None None in
  let infoContainer := addChild [] infoContainerBackground in
  let nextY := 0 in
  let acc := (infoContainer, nextY) in
  let acc := if propFilter this "id"
             then _displayMember this (fst acc) obj (snd acc) "id" nestColor
             else acc in
  let acc := if propFilter this "name"
             then _displayMember this (fst acc) obj (snd acc) "name" nestColor
             else acc in
  let acc := if propFilter this "parentId"
             then _displayParentId this (fst acc) obj (snd acc) nestColor
             else acc in
  fold_left (member_step this obj nestColor) (keys obj) acc.

(** The test that guards the frame-bounds compensation:
    [obj.frameBounds && obj.frameBounds.length > 0 &&
     Number.isInteger(obj.currentFrame) &&
     obj.currentFrame >= obj.frameBounds.length]. *)
Definition frameOverrun (obj : DisplayObject) : bool :=
  match frameBounds obj with
  | Some fb =>
      (0 <? Z.of_nat (length fb)) && Number_isInteger (currentFrame obj)
      && match currentFrame obj with
         | VNum n => n >=? Z.of_nat (length fb)
         | _ => false
         end
  | None => false
  end.

(** The local [bounds] of [_addObjectToContainer] after the [try]: the last
    entry of [frameBounds] when the current frame has run past its end, else
    what [getBounds()] returns; a caught fault leaves it undefined. *)
Definition resolveBounds (obj : DisplayObject) : option Rectangle :=
  if frameOverrun obj then
    match frameBounds obj with
    | Some fb =>
        match array_get fb (Z.of_nat (length fb) - 1) with
        | Some r => r
        | None => None
        end
    | None => None
    end
  else
    match getBounds obj with
    | Returns r => r
    | Throws => None
    end.

(** The part of [_addObjectToContainer] that follows the loop over the
    children: what [obj] itself adds to [container]. *)
Definition annotate (this : StageInspector) (container : list prim)
  (obj : DisplayObject) (nestLevel : Z) : list prim :=
  if includeObj (_filters this) obj then
    match resolveBounds obj with
    | None => container
    | Some bounds =>
        let nestColor := _getNestColor this nestLevel in
        let container := if propFilter this "bounds"
                         then _displayBounds container obj nestColor else container in
        let container := if propFilter this "pos"
                         then _displayPos container obj nestColor else container in
        let container := if propFilter this "regPos"
                         then _displayRegPos container obj nestColor else container in
        let container := if propFilter this "width"
                         then _displayWidth container obj nestColor else container in
        let container := if propFilter this "height"
                         then _displayHeight container obj nestColor else container in
        let '(infoContainer, nextY) := infoPanel this obj nestColor in
        if nextY >? 0 then
          addChild container
            (Container (named "si_infoContainer_" obj) (_drawInfoBackground infoContainer))
        else container
    end
  else container.

(** [_addObjectToContainer(container, obj, nestLevel)]: the children first,
    then the object itself. *)
Fixpoint _addObjectToContainer (this : StageInspector) (container : list prim)
  (obj : DisplayObject) (nestLevel : Z) : list prim :=
  let container :=
    match children obj with
    | Some cs =>
        (fix forEach (rest : list DisplayObject) (container : list prim) :=
           match rest with
           | child :: rest' =>
               forEach rest' (_addObjectToContainer this container child (nestLevel + 1))
           | [] => container
           end) cs container
    | None => container
    end in
  annotate this container obj nestLevel.

(** ** The host's containers and events

    Modelled from the spec: the host scene-graph library is not part of the
    repository; the spec asks of it a container "supporting child
    add/remove/clear" and a redraw notification "subscribable/unsubscribable
    by callback identity".  As in EaselJS, removing takes out the first
    occurrence of the child and adding first takes the child out of the
    parent it has. *)

(** [stage.removeChild(child)] on the child list of the stage. *)
Fixpoint removeChild (cs : list DisplayObject) (child : DisplayObject)
  : list DisplayObject :=
  match cs with
  | [] => []
  | c :: cs' => if same_object c child then cs' else c :: removeChild cs' child
  end.

(** [stage.addChild(child)] on the child list of the stage. *)
Definition stage_addChild (cs : list DisplayObject) (child : DisplayObject)
  : list DisplayObject :=
  removeChild cs child ++ [child].

Definition set_children (obj : DisplayObject) (cs : list DisplayObject)
  : DisplayObject :=
  mkDisplayObject (ref obj) (className obj) (id obj) (name obj) (fields obj)
    (Some cs) (getBounds obj) (frameBounds obj) (currentFrame obj).

Definition set_stage (this : StageInspector) (stage : DisplayObject) : StageInspector :=
  mkStageInspector stage (propFilters this) (nestColors this) (_container this)
    (_updateOnDraw this) (_filters this) (overlay this) (drawstart this)
    (lineHeight this).

Definition set_overlay (this : StageInspector) (o : list prim) : StageInspector :=
  mkStageInspector (_stage this) (propFilters this) (nestColors this)
    (_container this) (_updateOnDraw this) (_filters this) o (drawstart this)
    (lineHeight this).

Definition set_drawstart (this : StageInspector) (b : bool) : StageInspector :=
  mkStageInspector (_stage this) (propFilters this) (nestColors this)
    (_container this) (_updateOnDraw this) (_filters this) (overlay this) b
    (lineHeight this).

Definition set_filters (this : StageInspector) (f : option (list entry))
  : StageInspector :=
  mkStageInspector (_stage this) (propFilters this) (nestColors this)
    (_container this) (_updateOnDraw this) f (overlay this) (drawstart this)
    (lineHeight this).

Definition set_updateOnDraw_field (this : StageInspector) (b : bool) : StageInspector :=
  mkStageInspector (_stage this) (propFilters this) (nestColors this)
    (_container this) b (_filters this) (overlay this) (drawstart this)
    (lineHeight this).

(** ** Lifecycle of the overlay *)

Definition defaultPropFilters : gmap string bool :=
  list_to_map
    [("bounds", true); ("pos", true); ("regPos", true); ("width", true);
     ("height", true); ("name", true); ("id", true); ("x", true); ("y", true);
     ("scaleX", true); ("scaleY", true)].

Definition defaultNestColors : list string :=
  ["#ff00ff"; "#7e00ff"; "#ff0083"; "#03ff00"; "#b300b3"; "#5800b3";
   "#b3005c"; "#02b300"; "#4c004c"; "#25004c"; "#4c0027"; "#004c00"].

(** [new createjs.Container()] named [si_ui_container]; the host gives it a
    fresh identity [r] and id [i]. *)
Definition newContainer (r : nat) (i : Z) : DisplayObject :=
  mkDisplayObject r "Container" i (Some "si_ui_container") [] (Some [])
    (Returns None) None VUndefined.

(** [new StageInspector(stage)] *)
Definition constructor (stage : DisplayObject) (r : nat) (i : Z) (lh : Z)
  : StageInspector :=
  mkStageInspector stage defaultPropFilters defaultNestColors
    (newContainer r i) true None [] false lh.

(** [get showing()] *)
Definition showing (this : StageInspector) : bool :=
  match childList (_stage this) with
  | [] => false
  | c :: cs => same_object (List.last cs c) (_container this)
  end.

(** [_updateDisplay()]: [removeAllChildren()] empties the container, then
    every child of the stage but the container is added to it. *)
Definition _updateDisplay (this : StageInspector) : StageInspector :=
  set_overlay this
    (fold_left
       (fun container child =>
          if negb (same_object child (_container this))
          then _addObjectToContainer this container child 0
          else container)
       (childList (_stage this)) []).

(** [hide()]; [this._container] is an object, so the guard of the source
    always passes. *)
Definition hide (this : StageInspector) : StageInspector :=
  let this := if _updateOnDraw this then set_drawstart this false else this in
  let this := set_overlay this [] in
  set_stage this
    (set_children (_stage this) (removeChild (childList (_stage this)) (_container this))).

(** [show(filters)] *)
Definition show (this : StageInspector) (filters : option (list entry))
  : StageInspector :=
  let this := hide this in
  let this := set_filters this filters in
  let this := if _updateOnDraw this then set_drawstart this true
              else _updateDisplay this in
  set_stage this
    (set_children (_stage this) (stage_addChild (childList (_stage this)) (_container this))).

(** [set updateOnDraw(val)] *)
Definition set_updateOnDraw (this : StageInspector) (val : bool) : StageInspector :=
  let this :=
    if showing this && negb (Bool.eqb val (_updateOnDraw this)) then
      if _updateOnDraw this then set_drawstart this false
      else set_drawstart this true
    else this in
  set_updateOnDraw_field this val.

(** The stage announces [drawstart]: a subscribed [_updateDisplay] runs. *)
Definition on_drawstart (this : StageInspector) : StageInspector :=
  if drawstart this then _updateDisplay this else this.

(** The application adds a display object of its own to the stage. *)
Definition app_addChild (this : StageInspector) (child : DisplayObject)
  : StageInspector :=
  set_stage this
    (set_children (_stage this) (stage_addChild (childList (_stage this)) child)).

(** ** Lookups and the console dump *)

(** [getObjectByName(name)], [None] for [null]. *)
Definition getObjectByName (this : StageInspector) (nm : string)
  : option DisplayObject :=
  if String.eqb (toLowerCase nm) "stage" then Some (_stage this)
  else _searchForObject (has_name nm) (_stage this).

(** [getObjectById(id)], [None] for [null]. *)
Definition getObjectById (this : StageInspector) (i : Z) : option DisplayObject :=
  _searchForObject (fun obj => Z.eqb (id obj) i) (_stage this).

(** [getObjectsByCustomSearch(func)] *)
Definition getObjectsByCustomSearch (this : StageInspector)
  (func : DisplayObject -> bool) : list DisplayObject :=
  _searchForObjects func (_stage this).

(** What reaches the console. [log_ref r] is [console.log('ref: ', obj)] for
    the object of identity [r]. *)
Inductive event : Type :=
| group (label : string)
| groupCollapsed (label : string)
| log_ref (r : nat)
| log (line : string)
| groupEnd.

(** [obj.name] in a string concatenation. *)
Definition show_name (obj : DisplayObject) : string :=
  match name obj with Some s => s | None => "null" end.

(** [obj.toString()] of a display object. *)
Definition toString (obj : DisplayObject) : string :=
  "[" +:+ className obj +:+ " (name=" +:+ show_name obj +:+ ")]".

(** [obj instanceof createjs.Text] *)
Definition instanceof_Text (obj : DisplayObject) : bool :=
  String.eqb (className obj) "Text".

(** [_getObjectDisplayName(obj)] for an object. *)
Definition _getObjectDisplayName (obj : DisplayObject) : string :=
  let back := if instanceof_Text obj
              then "[Text (name=" +:+ show_name obj +:+ ")]"
              else toString obj in
  back +:+ " (id=" +:+ show_Z (id obj) +:+ ")".

(** [Rectangle.prototype.toString] *)
Definition show_Rectangle (r : Rectangle) : string :=
  "[Rectangle (x=" +:+ show_Z (rx r) +:+ " y=" +:+ show_Z (ry r) +:+ " width="
  +:+ show_Z (rwidth r) +:+ " height=" +:+ show_Z (rheight r) +:+ ")]".

(** The local [bounds] of [_dumpObject] as a string: a caught fault leaves it
    undefined. *)
Definition show_bounds (obj : DisplayObject) : string :=
  match getBounds obj with
  | Returns (Some r) => show_Rectangle r
  | Returns None => "null"
  | Throws => "undefined"
  end.

(** The fifteen field lines of [_dumpObject]. *)
Definition dumpFields (obj : DisplayObject) : list event :=
  [ log ("visible:         " +:+ to_string (get obj "visible"));
    log ("alpha:           " +:+ to_string (get obj "alpha"));
    log ("x:               " +:+ to_string (get obj "x"));
    log ("y:               " +:+ to_string (get obj "y"));
    log ("bounds:          " +:+ show_bounds obj);
    log ("regX:            " +:+ to_string (get obj "regX"));
    log ("regY:            " +:+ to_string (get obj "regY"));
    log ("scaleX:          " +:+ to_string (get obj "scaleX"));
    log ("scaleY:          " +:+ to_string (get obj "scaleY"));
    log ("rotation:        " +:+ to_string (get obj "rotation"));
    log ("transformMatrix: " +:+ to_string (get obj "transformMatrix"));
    log ("mouseChildren:   " +:+ to_string (get obj "mouseChildren"));
    log ("mouseEnabled:    " +:+ to_string (get obj "mouseEnabled"));
    log ("cachedStatus:    " +:+ to_string (get obj "cacheID"));
    log ("filters:         " +:+ to_string (get obj "filters")) ].

(** [_dumpObject(obj, name, expand)]: the console output it adds. *)
Fixpoint _dumpObject (this : StageInspector) (obj : DisplayObject)
  (label : string) (expand : bool) : list event :=
  if same_object (_container this) obj then []
  else
    [ if expand then group label else groupCollapsed label; log_ref (ref obj) ]
    ++ dumpFields obj
    ++ match children obj with
       | Some cs =>
           [ group "Children:" ]
           ++ flat_map
                (fun child => _dumpObject this child (_getObjectDisplayName child) false)
                cs
           ++ [ groupEnd ]
       | None => [ log "Children: None" ]
       end
    ++ [ groupEnd ].

(** How a call ends: it returns with its console output, or a TypeError
    escapes it after the output shown. *)
Inductive outcome : Type :=
| Completed (out : list event)
| Faulted (out : list event).

(** The entry of [dump]'s array after the lookups, [_isString] first and
    [_isNumber] second: [None] is [null]. *)
Definition resolve (this : StageInspector) (obj : entry) : option DisplayObject :=
  match obj with
  | EStr s => getObjectByName this s
  | ENum n => getObjectById this n
  | EObj o => Some o
  end.

(** [objects.forEach(...)] of [dump].  On [null] the argument
    [this._getObjectDisplayName(obj)] evaluates [null.toString()], which
    throws before [_dumpObject] is entered. *)
Fixpoint dump_forEach (this : StageInspector) (objects : list entry)
  (out : list event) : outcome :=
  match objects with
  | [] => Completed out
  | obj :: rest =>
      match resolve this obj with
      | None => Faulted out
      | Some o =>
          dump_forEach this rest
            (out ++ _dumpObject this o (_getObjectDisplayName o) true)
      end
  end.

(** [dump(objects)]; the stage of an inspector is always set. *)
Definition dump (this : StageInspector) (objects : option (list entry)) : outcome :=
  match objects with
  | Some objs =>
      match dump_forEach this objs [ group "Display objects" ] with
      | Completed out => Completed (out ++ [ groupEnd ])
      | Faulted out => Faulted out
      end
  | None =>
      Completed
        (_dumpObject this (_stage this)
           ("Stage (id=" +:+ show_Z (id (_stage this)) +:+ ")") true)
  end.

(** ** Filter entries in the spec's words *)

(** An entry selects [obj]: a number equal to its id, a string equal to its
    name, or the object itself. *)
Definition selects (obj : DisplayObject) (e : entry) : Prop :=
  match e with
  | ENum n => n = id obj
  | EStr s => name obj = Some s
  | EObj o => ref o = ref obj
  end.

(** ** Vocabulary of the statements *)

(** [descends obj k d]: [d] lies [k >= 1] levels below [obj]. *)
Inductive descends : DisplayObject -> Z -> DisplayObject -> Prop :=
| descends_child (obj child : DisplayObject) :
    In child (childList obj) -> descends obj 1 child
| descends_deeper (obj child : DisplayObject) (k : Z) (d : DisplayObject) :
    In child (childList obj) -> descends child k d -> descends obj (k + 1) d.

(** The keys of the property filter that stand for a drawing outside the
    info panel. *)
Definition structuralKeys : list string :=
  ["bounds"; "pos"; "regPos"; "width"; "height"].

(** The test the loop over [Object.keys(obj)] applies to a key. *)
Definition shown_key (this : StageInspector) (obj : DisplayObject) (key : string)
  : bool :=
  (not_underscored key && not_special key)
  && (propFilter this key && negb (instanceof_Object (get obj key))).

(** The stage holds the overlay layer at most once. *)
Definition attached_once (this : StageInspector) : Prop :=
  (length (List.filter (fun c => same_object c (_container this))
             (childList (_stage this))) <= 1)%nat.

(** The overlay is hidden: emptied, not on the stage, not subscribed. *)
Definition Hidden (this : StageInspector) : Prop :=
  overlay this = []
  /\ Forall (fun c => same_object c (_container this) = false) (childList (_stage this))
  /\ drawstart this = false.

(** The states an inspector goes through: from its construction on a stage
    that does not hold the new container, by its own operations, by redraws
    and by the application adding display objects to the stage. *)
Inductive reachable : StageInspector -> Prop :=
| reach_new (stage : DisplayObject) (r : nat) (i lh : Z) :
    Forall (fun c => Nat.eqb (ref c) r = false) (childList stage) ->
    reachable (constructor stage r i lh)
| reach_show this filters : reachable this -> reachable (show this filters)
| reach_hide this : reachable this -> reachable (hide this)
| reach_updateOnDraw this val : reachable this -> reachable (set_updateOnDraw this val)
| reach_drawstart this : reachable this -> reachable (on_drawstart this)
| reach_addChild this child : reachable this -> reachable (app_addChild this child).

(** ** A sample scene

    A stage with a group of two shapes and a shape that is named like the
    stage; used to run the definitions on concrete input. *)

Definition sampleRect : Rectangle := mkRectangle 0 0 10 10.

Definition sampleShape (r : nat) (i : Z) (n : string) (b : boundsOutcome)
  : DisplayObject :=
  mkDisplayObject r "Shape" i (Some n)
    [("visible", VBool true); ("x", VNum 5); ("y", VNum 7); ("parent", VObject)]
    None b None VUndefined.

Definition sampleGroup (r : nat) (i : Z) (n : string) (cs : list DisplayObject)
  : DisplayObject :=
  mkDisplayObject r "Container" i (Some n)
    [("visible", VBool true); ("x", VNum 0); ("y", VNum 0); ("parent", VObject);
     ("children", VObject)]
    (Some cs) (Returns None) None VUndefined.

Definition shapeA : DisplayObject := sampleShape 2 3 "a" (Returns (Some sampleRect)).
Definition shapeB : DisplayObject := sampleShape 3 4 "b" Throws.
Definition shapeStage : DisplayObject := sampleShape 4 5 "Stage" (Returns (Some sampleRect)).
Definition groupG : DisplayObject := sampleGroup 1 2 "g" [shapeA; shapeB].

Definition sampleStage : DisplayObject :=
  mkDisplayObject 0 "Stage" 1 None [("children", VObject)]
    (Some [groupG; shapeStage]) (Returns None) None VUndefined.

Definition sampleInspector : StageInspector := constructor sampleStage 100 99 12.

(** A movie clip whose current frame is one past its frame bounds: its
    [getBounds()] throws. *)
Definition movieClip : DisplayObject :=
  mkDisplayObject 5 "MovieClip" 6 (Some "clip")
    [("visible", VBool true); ("x", VNum 1); ("y", VNum 2); ("currentFrame", VNum 1)]
    (Some [shapeA]) Throws (Some [Some sampleRect]) (VNum 1).

(** A shape on which the application has set a [width] field. *)
Definition sizedShape : DisplayObject :=
  mkDisplayObject 6 "Shape" 7 (Some "sized")
    [("visible", VBool true); ("x", VNum 5); ("y", VNum 7); ("width", VNum 100)]
    None (Returns (Some sampleRect)) None VUndefined.

(** The overlay is shown live, the application puts a shape on top of it,
    and live refresh is switched off. *)
Definition leakedInspector : StageInspector :=
  set_updateOnDraw (app_addChild (show sampleInspector None) sizedShape) false.

(** The states an inspector goes through when nothing but the inspector and
    the redraws touch the stage. *)
Inductive reachable_alone : StageInspector -> Prop :=
| alone_new (stage : DisplayObject) (r : nat) (i lh : Z) :
    Forall (fun c => Nat.eqb (ref c) r = false) (childList stage) ->
    reachable_alone (constructor stage r i lh)
| alone_show this filters : reachable_alone this -> reachable_alone (show this filters)
| alone_hide this : reachable_alone this -> reachable_alone (hide this)
| alone_updateOnDraw this val :
    reachable_alone this -> reachable_alone (set_updateOnDraw this val)
| alone_drawstart this : reachable_alone this -> reachable_alone (on_drawstart this).

(** ** More vocabulary *)

(** Two inspectors with the same configuration: filter array, property
    filters, colour table and line height. *)
Definition same_config (a b : StageInspector) : Prop :=
  _filters a = _filters b
  /\ propFilters a = propFilters b
  /\ nestColors a = nestColors b
  /\ lineHeight a = lineHeight b.

(** The children of the stage that belong to the application. *)
Definition sceneChildren (this : StageInspector) : list DisplayObject :=
  List.filter (fun child => negb (same_object child (_container this)))
    (childList (_stage this)).

(** The objects whose reference line a console output holds, in order. *)
Definition refs_logged (out : list event) : list nat :=
  flat_map (fun e => match e with log_ref r => [r] | _ => [] end) out.

(** Depth-first pre-order that stops at [c]: neither [c] nor what lies below
    it is listed. *)
Fixpoint preorder_outside (c : DisplayObject) (obj : DisplayObject)
  : list DisplayObject :=
  if same_object c obj then []
  else obj :: match children obj with
              | Some cs => flat_map (preorder_outside c) cs
              | None => []
              end.




(** What [dump] writes for one entry of its array that resolves to an
    object: the expanded report of that object. *)
Definition entry_report (this : StageInspector) (e : entry) : list event :=
  match resolve this e with
  | Some o => _dumpObject this o (_getObjectDisplayName o) true
  | None => []
  end.

(** ** Click to dump

    Modelled from the spec: the host stage is "a pointer-event source
    supporting capture-phase subscription, per-event-type".  As in EaselJS,
    [stage.on(type, fn, scope, false, null, true)] wraps [fn] in a new
    function, subscribes the wrapper for the capture phase and returns it;
    [stage.off(type, listener, true)] takes out the first subscription of
    that listener for that type. *)

(** The functions the inspector subscribes, and those of the application. *)
Inductive handler : Type :=
| clickToDumpListener
| suppressEvent
| appListener (n : nat).

(** A capture-phase subscription: the event type, the identity of the
    subscribed function and what it runs. *)
Record subscription : Type := mkSubscription {
  s_type : string;
  s_listener : nat;
  s_handler : handler
}.

(** The part of the state that click-to-dump works on: the capture-phase
    subscriptions of the stage in the order they were made, the identity the
    next wrapper gets, and [this._dumpListeners] ([None] when unset or null). *)
Record Pointer : Type := mkPointer {
  capture : list subscription;
  nextListener : nat;
  _dumpListeners : option (list (string * nat))
}.

(** [stage.on(type, fn, this, false, null, true)]: the new state and the
    returned wrapper. *)
Definition stage_on (p : Pointer) (type : string) (fn : handler) : Pointer * nat :=
  (mkPointer (capture p ++ [mkSubscription type (nextListener p) fn])
     (S (nextListener p)) (_dumpListeners p),
   nextListener p).

Definition is_subscription (type : string) (listener : nat) (s : subscription) : bool :=
  String.eqb (s_type s) type && Nat.eqb (s_listener s) listener.

Fixpoint unsubscribe (type : string) (listener : nat) (l : list subscription)
  : list subscription :=
  match l with
  | [] => []
  | s :: l' => if is_subscription type listener s then l'
               else s :: unsubscribe type listener l'
  end.

(** [stage.off(type, listener, true)] *)
Definition stage_off (p : Pointer) (type : string) (listener : nat) : Pointer :=
  mkPointer (unsubscribe type listener (capture p)) (nextListener p) (_dumpListeners p).

Definition set_dumpListeners (p : Pointer) (l : option (list (string * nat))) : Pointer :=
  mkPointer (capture p) (nextListener p) l.

(** [const suppressEvents = [...]] of [enableClickToDump]. *)
Definition suppressEvents : list string :=
  ["mousedown"; "pressup"; "dblclick"; "mouseout"; "mouseover"; "pressmove"].

(** [this._dumpListeners.push({ type, listener })] *)
Definition push_dumpListener (p : Pointer) (type : string) (listener : nat) : Pointer :=
  set_dumpListeners p
    (match _dumpListeners p with
     | Some l => Some (l ++ [(type, listener)])
     | None => None
     end).

(** [enableClickToDump()] *)
Definition enableClickToDump (p : Pointer) : Pointer :=
  match _dumpListeners p with
  | Some _ => p
  | None =>
      let '(p, listener) := stage_on p "click" clickToDumpListener in
      let p := set_dumpListeners p (Some [("click", listener)]) in
      fold_left
        (fun p type =>
           let '(p, listener) := stage_on p type suppressEvent in
           push_dumpListener p type listener)
        suppressEvents p
  end.

(** [disableClickToDump()] *)
Definition disableClickToDump (p : Pointer) : Pointer :=
  match _dumpListeners p with
  | Some l =>
      let p := fold_left (fun p tl => stage_off p (fst tl) (snd tl)) l p in
      set_dumpListeners p None
  | None => p
  end.

(** What runs, in order, when the stage dispatches an event of [type] in the
    capture phase. *)
Definition handlers_for (p : Pointer) (type : string) : list handler :=
  map s_handler (List.filter (fun s => String.eqb (s_type s) type) (capture p)).

(** Every subscribed function was created before the next wrapper. *)
Definition listeners_known (p : Pointer) : Prop :=
  Forall (fun s => (s_listener s < nextListener p)%nat) (capture p).

(** [_clickToDumpListener(evt)], with [underPoint] what
    [getObjectsUnderPoint(evt.stageX, evt.stageY)] returns: how the dump ends
    and whether [evt.stopPropagation()] was reached. *)
Definition _clickToDumpListener (this : StageInspector)
  (underPoint : list DisplayObject) : outcome * bool :=
  match dump this (Some (map EObj underPoint)) with
  | Completed out => (Completed out, true)
  | Faulted out => (Faulted out, false)
  end.

(** What [enableClickToDump] subscribes when the next wrapper gets identity
    [n]: the click handler, then the handler that suppresses the six other
    pointer events. *)
Definition inspectorSubscriptions (n : nat) : list subscription :=
  [ mkSubscription "click" n clickToDumpListener;
    mkSubscription "mousedown" (S n) suppressEvent;
    mkSubscription "pressup" (S (S n)) suppressEvent;
    mkSubscription "dblclick" (S (S (S n))) suppressEvent;
    mkSubscription "mouseout" (S (S (S (S n)))) suppressEvent;
    mkSubscription "mouseover" (S (S (S (S (S n))))) suppressEvent;
    mkSubscription "pressmove" (S (S (S (S (S (S n)))))) suppressEvent ].

(** A stage with an application listener for clicks, before click-to-dump. *)
Definition samplePointer : Pointer :=
  mkPointer [mkSubscription "click" 0 (appListener 0)] 1 None.

(** An inspector whose property filters and colour table were emptied. *)
Definition bareInspector : StageInspector :=
  mkStageInspector sampleStage ∅ [] (newContainer 100 99) true None [] false 12.

(** * Properties *)

(** ** Lists *)

Lemma find_app_first {A : Type} (f : A -> bool) (l1 l2 : list A) :
  List.find f (l1 ++ l2) =
  match List.find f l1 with Some x => Some x | None => List.find f l2 end.
Proof.
  induction l1 as [|a l1 IH]; simpl; [reflexivity|].
  destruct (f a); [reflexivity|exact IH].
Qed.

Lemma filter_flat_map {A B : Type} (f : B -> bool) (g : A -> list B) (l : list A) :
  List.filter f (flat_map g l) = flat_map (fun x => List.filter f (g x)) l.
Proof.
  induction l as [|a l IH]; simpl; [reflexivity|].
  rewrite List.filter_app, IH. reflexivity.
Qed.

Lemma map_flat_map {A B C : Type} (h : B -> C) (g : A -> list B) (l : list A) :
  map h (flat_map g l) = flat_map (fun x => map h (g x)) l.
Proof.
  induction l as [|a l IH]; simpl; [reflexivity|].
  rewrite List.map_app, IH. reflexivity.
Qed.

Lemma flat_map_ext_Forall {A B : Type} (g h : A -> list B) (l : list A) :
  Forall (fun x => g x = h x) l -> flat_map g l = flat_map h l.
Proof.
  induction 1 as [|a l Ha _ IH]; simpl; [reflexivity|].
  rewrite Ha, IH. reflexivity.
Qed.

Lemma flat_map_nil_Forall {A B : Type} (g : A -> list B) (l : list A) :
  Forall (fun x => g x = []) l -> flat_map g l = [].
Proof.
  induction 1 as [|a l Ha _ IH]; simpl; [reflexivity|].
  rewrite Ha, IH. reflexivity.
Qed.

(** ** Search *)

(** The loop of [_searchForObjects] appends the results of the children. *)
Lemma searchForObjects_loop func (cs back : list DisplayObject) :
  (fix loop (rest : list DisplayObject) (back : list DisplayObject) :=
     match rest with
     | child :: rest' => loop rest' (back ++ _searchForObjects func child)
     | [] => back
     end) cs back
  = back ++ flat_map (_searchForObjects func) cs.
Proof.
  revert back. induction cs as [|c cs IH]; intros back; simpl.
  - now rewrite app_nil_r.
  - rewrite IH, <- app_assoc. reflexivity.
Qed.

Lemma searchForObjects_eq func obj :
  _searchForObjects func obj =
  if func obj then [obj] else flat_map (_searchForObjects func) (childList obj).
Proof.
  destruct obj as [r c i n f [cs|] b fb cf]; unfold childList; simpl;
    destruct (func _); try reflexivity.
  apply searchForObjects_loop.
Qed.

Lemma preorder_under_eq anc obj :
  preorder_under anc obj =
  (anc, obj) :: flat_map (preorder_under (obj :: anc)) (childList obj).
Proof. destruct obj as [r c i n f [cs|] b fb cf]; reflexivity. Qed.

(** Below a match nothing is kept. *)
Lemma findAll_below_match func obj :
  forall anc, forallb (fun a => negb (func a)) anc = false ->
    List.filter (unmatched_path func) (preorder_under anc obj) = [].
Proof.
  induction obj as [r c i n f b fb cf | r c i n f cs b fb cf IH]
    using DisplayObject_ind; intros anc Hanc;
    rewrite preorder_under_eq; unfold childList; simpl;
    unfold unmatched_path at 1; simpl; rewrite Hanc, andb_false_r.
  - reflexivity.
  - rewrite filter_flat_map. apply flat_map_nil_Forall.
    eapply Forall_impl; [exact IH|]. intros x Hx. apply Hx.
    simpl. rewrite Hanc. apply andb_false_r.
Qed.

Lemma findAll_no_match_above func obj :
  forall anc, forallb (fun a => negb (func a)) anc = true ->
    map snd (List.filter (unmatched_path func) (preorder_under anc obj))
    = _searchForObjects func obj.
Proof.
  induction obj as [r c i n f b fb cf | r c i n f cs b fb cf IH]
    using DisplayObject_ind; intros anc Hanc;
    rewrite preorder_under_eq, searchForObjects_eq; unfold childList; simpl;
    unfold unmatched_path at 1; simpl; rewrite Hanc, andb_true_r.
  - destruct (func _); reflexivity.
  - destruct (func _) eqn:Hf; simpl.
    + f_equal. rewrite filter_flat_map.
      rewrite (flat_map_nil_Forall _ cs); [reflexivity|].
      rewrite Forall_forall. intros x _. apply findAll_below_match.
      simpl. rewrite Hf. reflexivity.
    + rewrite filter_flat_map, map_flat_map. apply flat_map_ext_Forall.
      eapply Forall_impl; [exact IH|]. intros x Hx. apply Hx.
      simpl. rewrite Hf. exact Hanc.
Qed.

(** The loop of [_searchForObject] stops at the first child whose subtree has
    a match. *)
Lemma searchForObject_loop func (cs : list DisplayObject) :
  Forall (fun c => _searchForObject func c = List.find func (preorder c)) cs ->
  (fix loop (rest : list DisplayObject) (back : option DisplayObject) :=
     match rest, back with
     | child :: rest', None => loop rest' (_searchForObject func child)
     | _, _ => back
     end) cs None
  = List.find func (flat_map preorder cs).
Proof.
  induction 1 as [|c cs Hc _ IH]; simpl; [reflexivity|].
  rewrite find_app_first, <- Hc.
  destruct (_searchForObject func c) as [x|]; [|exact IH].
  destruct cs; reflexivity.
Qed.

Lemma searchForObject_find func obj :
  _searchForObject func obj = List.find func (preorder obj).
Proof.
  induction obj as [r c i n f b fb cf | r c i n f cs b fb cf IH]
    using DisplayObject_ind; simpl; destruct (func _); try reflexivity.
  apply searchForObject_loop, IH.
Qed.

(** C9. The multi-match search returns, in depth-first pre-order, exactly the
    matching nodes that have no matching proper ancestor: every match is
    reported unless it lies below another match, so the children of a
    matching node are never searched and no root-to-leaf path carries two
    reported nodes.  A matching root is the whole result. *)
Theorem searchForObjects_preorder_outermost :
  forall (func : DisplayObject -> bool) (root : DisplayObject),
    _searchForObjects func root = findAll_spec func root
    /\ (func root = true -> _searchForObjects func root = [root]).
Proof.
  intros func root. split.
  - unfold findAll_spec. symmetry. now apply findAll_no_match_above.
  - intros Hroot. rewrite searchForObjects_eq, Hroot. reflexivity.
Qed.

Lemma searchForObjects_preorder_outermost_witness :
  _searchForObjects (fun o => 2 <=? id o) groupG = [groupG].
Proof.
  apply (proj2 (searchForObjects_preorder_outermost (fun o => 2 <=? id o) groupG)).
  reflexivity.
Defined.

(** C10. A name whose lowercase form is "stage" yields the stage itself,
    whatever the names in the tree; any other name yields the first node in
    depth-first pre-order (the stage included) whose name is exactly that
    string, and null when there is none. *)
Theorem getObjectByName_stage_or_first :
  forall (this : StageInspector) (nm : string),
    (String.eqb (toLowerCase nm) "stage" = true ->
       getObjectByName this nm = Some (_stage this))
    /\ (String.eqb (toLowerCase nm) "stage" = false ->
          getObjectByName this nm
          = List.find (has_name nm) (preorder (_stage this))).
Proof.
  intros this nm. unfold getObjectByName. split; intros H; rewrite H.
  - reflexivity.
  - apply searchForObject_find.
Qed.

Lemma getObjectByName_stage_or_first_witness :
  getObjectByName sampleInspector "Stage" = Some sampleStage
  /\ getObjectByName sampleInspector "b"
     = List.find (has_name "b") (preorder sampleStage).
Proof.
  split.
  - apply (proj1 (getObjectByName_stage_or_first sampleInspector "Stage")).
    reflexivity.
  - apply (proj2 (getObjectByName_stage_or_first sampleInspector "b")).
    reflexivity.
Defined.

(** ** Filters *)

Lemma has_name_true nm obj : has_name nm obj = true <-> name obj = Some nm.
Proof.
  unfold has_name. destruct (name obj) as [s|].
  - rewrite String.eqb_eq. split; congruence.
  - split; discriminate.
Qed.

Lemma filter_test_selects obj e : filter_test obj e = true <-> selects obj e.
Proof.
  destruct e as [n|s|o]; unfold filter_test; cbn.
  - rewrite Z.eqb_eq. split; congruence.
  - apply has_name_true.
  - unfold same_object. rewrite Nat.eqb_eq. split; congruence.
Qed.

Lemma checkFilters_for_back obj (F : list entry) :
  forall i back,
    snd (_checkFilters_for obj F i back) = back || existsb (filter_test obj) F.
Proof.
  induction F as [|e F IH]; intros i back; simpl.
  - now rewrite orb_false_r.
  - destruct back; simpl; [reflexivity|]. now rewrite IH.
Qed.

Lemma checkFilters_existsb F obj :
  _checkFilters F obj = existsb (filter_test obj) F.
Proof. unfold _checkFilters. now rewrite checkFilters_for_back. Qed.

Lemma checkFilters_for_stop obj (l1 : list entry) e l2 :
  forallb (fun x => negb (filter_test obj x)) l1 = true ->
  filter_test obj e = true ->
  forall i, _checkFilters_for obj (l1 ++ e :: l2) i false
            = ((i + S (length l1))%nat, true).
Proof.
  intros Hl1 He. induction l1 as [|x l1 IH]; intros i; simpl in *.
  - rewrite He. replace (i + 1)%nat with (S i) by lia. now destruct l2.
  - apply andb_prop in Hl1 as [Hx Hl1]. apply negb_true_iff in Hx.
    rewrite Hx, (IH Hl1). f_equal. lia.
Qed.

(** C4. Without a filter array every node is included.  With an array [F] a
    node is included exactly when some entry of [F] is a number equal to its
    id, a string equal to its name, or the node itself.  The loop stops right
    after the first entry that selects the node: its counter ends one past
    that entry and the entries behind it are not looked at.  The check reads
    its arguments only; the embedding is a function of them. *)
Theorem checkFilters_any_entry :
  forall (obj : DisplayObject),
    includeObj None obj = true
    /\ (forall F : list entry,
          includeObj (Some F) obj = true <-> exists e, In e F /\ selects obj e)
    /\ (forall (l1 : list entry) (e : entry) (l2 : list entry),
          forallb (fun x => negb (filter_test obj x)) l1 = true ->
          filter_test obj e = true ->
          _checkFilters_for obj (l1 ++ e :: l2) 0%nat false = (S (length l1), true)).
Proof.
  intros obj. split; [reflexivity|]. split.
  - intros F. simpl. rewrite checkFilters_existsb, existsb_exists.
    split; intros (e & Hin & He); exists e; split; trivial;
      now apply filter_test_selects.
  - intros l1 e l2 Hl1 He. now rewrite (checkFilters_for_stop obj l1 e l2 Hl1 He).
Qed.

Lemma checkFilters_any_entry_witness :
  _checkFilters_for shapeA ([ENum 7; EStr "b"] ++ EStr "a" :: [ENum 3]) 0%nat false
  = (3%nat, true).
Proof.
  apply (proj2 (proj2 (checkFilters_any_entry shapeA))); reflexivity.
Defined.

(** ** Nesting colours *)

(** C5. With a non-empty colour table and a depth [d >= 0], the lookup
    returns the entry at [d] when [d] is below the length of the table and
    the last entry otherwise. *)
Theorem getNestColor_clamped :
  forall (this : StageInspector) (d : Z),
    (0 < length (nestColors this))%nat ->
    0 <= d ->
    (d < Z.of_nat (length (nestColors this)) ->
       exists c, nth_error (nestColors this) (Z.to_nat d) = Some c
                 /\ _getNestColor this d = Some c)
    /\ (Z.of_nat (length (nestColors this)) <= d ->
          exists c, nth_error (nestColors this) (length (nestColors this) - 1)%nat = Some c
                    /\ _getNestColor this d = Some c).
Proof.
  intros this d Hlen Hd. unfold _getNestColor, array_get.
  set (t := nestColors this) in *. split; intros Hcase.
  - destruct (nth_error t (Z.to_nat d)) as [c|] eqn:Hnth.
    + exists c. split; [reflexivity|].
      destruct (Z.gtb_spec d (Z.of_nat (length t) - 1)); [lia|].
      destruct (Z.ltb_spec d 0); [lia|]. reflexivity.
    + apply nth_error_None in Hnth. lia.
  - destruct (nth_error t (length t - 1)%nat) as [c|] eqn:Hnth.
    + exists c. split; [reflexivity|].
      destruct (Z.gtb_spec d (Z.of_nat (length t) - 1)); [|lia].
      destruct (Z.ltb_spec (Z.of_nat (length t) - 1) 0); [lia|].
      replace (Z.to_nat (Z.of_nat (length t) - 1)) with (length t - 1)%nat by lia.
      congruence.
    + apply nth_error_None in Hnth. lia.
Qed.

Lemma getNestColor_clamped_witness :
  (exists c, nth_error defaultNestColors 3 = Some c
             /\ _getNestColor sampleInspector 3 = Some c)
  /\ (exists c, nth_error defaultNestColors 11 = Some c
                /\ _getNestColor sampleInspector 20 = Some c).
Proof.
  split.
  - apply (getNestColor_clamped sampleInspector 3); simpl; lia.
  - apply (getNestColor_clamped sampleInspector 20); simpl; lia.
Defined.

(** ** Building the overlay *)

Lemma annotate_app this container obj nestLevel :
  annotate this container obj nestLevel = container ++ annotate this [] obj nestLevel.
Proof.
  unfold annotate.
  destruct (includeObj _ _); [|now rewrite app_nil_r].
  destruct (resolveBounds obj); [|now rewrite app_nil_r].
  unfold _displayBounds, _displayPos, _displayRegPos, _displayWidth,
    _displayHeight, addChild.
  destruct (infoPanel _ _ _) as [infoContainer nextY].
  destruct (propFilter this "bounds"), (propFilter this "pos"),
    (propFilter this "regPos"), (propFilter this "width"),
    (propFilter this "height"), (nextY >? 0);
    simpl; rewrite <- ?app_assoc; simpl; rewrite ?app_nil_r; reflexivity.
Qed.

Lemma addObjectToContainer_forEach this nestLevel (cs : list DisplayObject) :
  Forall (fun child => forall container lvl,
            _addObjectToContainer this container child lvl
            = container ++ _addObjectToContainer this [] child lvl) cs ->
  forall container,
    (fix forEach (rest : list DisplayObject) (container : list prim) :=
       match rest with
       | child :: rest' =>
           forEach rest' (_addObjectToContainer this container child (nestLevel + 1))
       | [] => container
       end) cs container
    = container
      ++ flat_map (fun child => _addObjectToContainer this [] child (nestLevel + 1)) cs.
Proof.
  induction 1 as [|c cs Hc _ IH]; intros container; simpl.
  - now rewrite app_nil_r.
  - rewrite IH, Hc, <- app_assoc. reflexivity.
Qed.

Lemma addObjectToContainer_app this obj :
  forall container nestLevel,
    _addObjectToContainer this container obj nestLevel
    = container ++ _addObjectToContainer this [] obj nestLevel.
Proof.
  induction obj as [r c i n f b fb cf | r c i n f cs b fb cf IH]
    using DisplayObject_ind; intros container nestLevel; simpl.
  - apply annotate_app.
  - rewrite !(addObjectToContainer_forEach this nestLevel cs IH).
    rewrite annotate_app, (annotate_app this ([] ++ _)). simpl.
    now rewrite app_assoc.
Qed.

Lemma addObjectToContainer_eq this container obj nestLevel :
  _addObjectToContainer this container obj nestLevel
  = container
    ++ flat_map (fun child => _addObjectToContainer this [] child (nestLevel + 1))
         (childList obj)
    ++ annotate this [] obj nestLevel.
Proof.
  destruct obj as [r c i n f [cs|] b fb cf]; unfold childList; simpl.
  - rewrite addObjectToContainer_forEach.
    + rewrite annotate_app. now rewrite app_assoc.
    + rewrite Forall_forall. intros x _ ct lvl. apply addObjectToContainer_app.
  - apply annotate_app.
Qed.

Lemma flat_map_in_split {A B : Type} (g : A -> list B) (l : list A) (x : A) :
  In x l -> exists before after, flat_map g l = before ++ g x ++ after.
Proof.
  intros Hin. apply in_split in Hin as (l1 & l2 & ->).
  exists (flat_map g l1), (flat_map g l2).
  rewrite flat_map_app. reflexivity.
Qed.

(** Whatever lies below [obj] adds its own annotations, at its own depth, to
    what [obj] adds. *)
Lemma descendant_annotated this obj k d :
  descends obj k d ->
  forall container nestLevel,
  exists before after,
    _addObjectToContainer this container obj nestLevel
    = before ++ annotate this [] d (nestLevel + k) ++ after.
Proof.
  induction 1 as [obj child Hin | obj child k d Hin _ IH];
    intros container nestLevel; rewrite addObjectToContainer_eq;
    destruct (flat_map_in_split
                (fun c => _addObjectToContainer this [] c (nestLevel + 1))
                _ _ Hin) as (l1 & l2 & ->).
  - rewrite (addObjectToContainer_eq this [] child). simpl.
    exists (container ++ l1
            ++ flat_map (fun c => _addObjectToContainer this [] c (nestLevel + 1 + 1))
                 (childList child)),
      (l2 ++ annotate this [] obj nestLevel).
    rewrite <- !app_assoc. reflexivity.
  - destruct (IH [] (nestLevel + 1)) as (b1 & a1 & ->).
    replace (nestLevel + 1 + k) with (nestLevel + (k + 1)) by lia.
    exists (container ++ l1 ++ b1), (a1 ++ l2 ++ annotate this [] obj nestLevel).
    rewrite <- !app_assoc. reflexivity.
Qed.

(** C8. The build is depth-first with the children before their parent: what
    [_addObjectToContainer] appends is the contribution of the subtrees of
    the children, first to last, followed by the primitives of the object
    itself.  So for every child the primitives of the child sit in the
    overlay layer before those of its parent, which end the segment. *)
Theorem addObjectToContainer_children_first :
  forall (this : StageInspector) (container : list prim) (obj : DisplayObject)
         (nestLevel : Z),
    _addObjectToContainer this container obj nestLevel
    = container
      ++ flat_map (fun child => _addObjectToContainer this [] child (nestLevel + 1))
           (childList obj)
      ++ annotate this [] obj nestLevel
    /\ (forall child, In child (childList obj) ->
          exists before between,
            _addObjectToContainer this container obj nestLevel
            = before ++ annotate this [] child (nestLevel + 1)
              ++ between ++ annotate this [] obj nestLevel).
Proof.
  intros this container obj nestLevel. split.
  - apply addObjectToContainer_eq.
  - intros child Hin. rewrite addObjectToContainer_eq.
    destruct (flat_map_in_split
                (fun c => _addObjectToContainer this [] c (nestLevel + 1))
                _ _ Hin) as (l1 & l2 & ->).
    rewrite (addObjectToContainer_eq this [] child). simpl.
    exists (container ++ l1
            ++ flat_map (fun c => _addObjectToContainer this [] c (nestLevel + 1 + 1))
                 (childList child)), l2.
    rewrite <- !app_assoc. reflexivity.
Qed.

Lemma addObjectToContainer_children_first_witness :
  exists before between,
    _addObjectToContainer sampleInspector [] movieClip 0
    = before ++ annotate sampleInspector [] shapeA 1
      ++ between ++ annotate sampleInspector [] movieClip 0.
Proof.
  apply (proj2 (addObjectToContainer_children_first sampleInspector [] movieClip 0)).
  left. reflexivity.
Defined.

Lemma annotate_unbounded this container obj nestLevel :
  resolveBounds obj = None -> annotate this container obj nestLevel = container.
Proof.
  intros H. unfold annotate. rewrite H. now destruct (includeObj _ _).
Qed.

Lemma resolveBounds_accessor obj :
  frameOverrun obj = false ->
  getBounds obj = Throws \/ getBounds obj = Returns None ->
  resolveBounds obj = None.
Proof.
  intros Hf [H|H]; unfold resolveBounds; now rewrite Hf, H.
Qed.

(** An included node with bounds has its bounds rectangle drawn when the
    [bounds] key is enabled. *)
Lemma annotate_bounds_drawn this obj nestLevel bounds :
  includeObj (_filters this) obj = true ->
  resolveBounds obj = Some bounds ->
  propFilter this "bounds" = true ->
  In (Shape (named "si_bounds_" obj) (_getNestColor this nestLevel))
     (annotate this [] obj nestLevel).
Proof.
  intros Hi Hb Hp. unfold annotate. rewrite Hi, Hb, Hp.
  unfold _displayBounds, _displayPos, _displayRegPos, _displayWidth,
    _displayHeight, addChild.
  destruct (infoPanel _ _ _) as [infoContainer nextY].
  destruct (propFilter this "pos"), (propFilter this "regPos"),
    (propFilter this "width"), (propFilter this "height"), (nextY >? 0);
    rewrite ?in_app_iff; cbn; tauto.
Qed.

(** C3 (amended). A node to which the frame-bounds compensation does not
    apply and whose bounds accessor returns null or throws adds no primitive
    of its own; the build still goes through all its children, so that the
    overlay grows by exactly the contributions of their subtrees, and every
    descendant adds its own annotations at its own depth: the bounds
    rectangle of an included descendant with bounds is there when the
    [bounds] key is enabled. *)
Theorem unbounded_node_transparent :
  forall (this : StageInspector) (container : list prim) (obj : DisplayObject)
         (nestLevel : Z),
    frameOverrun obj = false ->
    getBounds obj = Throws \/ getBounds obj = Returns None ->
    annotate this container obj nestLevel = container
    /\ _addObjectToContainer this container obj nestLevel
       = container
         ++ flat_map (fun child => _addObjectToContainer this [] child (nestLevel + 1))
              (childList obj)
    /\ (forall k d, descends obj k d ->
          exists before after,
            _addObjectToContainer this container obj nestLevel
            = before ++ annotate this [] d (nestLevel + k) ++ after)
    /\ (forall k d bounds, descends obj k d ->
          includeObj (_filters this) d = true ->
          resolveBounds d = Some bounds ->
          propFilter this "bounds" = true ->
          In (Shape (named "si_bounds_" d) (_getNestColor this (nestLevel + k)))
             (_addObjectToContainer this container obj nestLevel)).
Proof.
  intros this container obj nestLevel Hf Hb.
  pose proof (resolveBounds_accessor obj Hf Hb) as Hnone.
  split; [now apply annotate_unbounded|]. split; [|split].
  - rewrite addObjectToContainer_eq, (annotate_unbounded this [] obj _ Hnone).
    now rewrite app_nil_r.
  - intros k d Hd. now apply descendant_annotated.
  - intros k d bounds Hd Hi Hr Hp.
    destruct (descendant_annotated this obj k d Hd container nestLevel)
      as (before & after & ->).
    rewrite !in_app_iff. right. left.
    eapply annotate_bounds_drawn; eassumption.
Qed.

Lemma unbounded_node_transparent_witness :
  In (Shape (named "si_bounds_" shapeA) (_getNestColor sampleInspector (0 + 1)))
     (_addObjectToContainer sampleInspector [] groupG 0).
Proof.
  refine (proj2 (proj2 (proj2
            (unbounded_node_transparent sampleInspector [] groupG 0 _ _)))
            1 shapeA sampleRect _ _ _ _).
  - reflexivity.
  - right. reflexivity.
  - apply descends_child. left. reflexivity.
  - reflexivity.
  - reflexivity.
  - vm_compute. reflexivity.
Defined.

(** C3, as first stated, fails on a movie clip whose current frame has run
    past its frame bounds: its bounds accessor throws, and the build draws it
    all the same, with the last entry of the frame bounds. *)
Lemma overrun_clip_annotated :
  getBounds movieClip = Throws
  /\ In (Shape (Some "si_bounds_6") (Some "#ff00ff"))
        (annotate sampleInspector [] movieClip 0).
Proof. split; [reflexivity|]. vm_compute. left. reflexivity. Qed.

(** ** The info panel *)

Lemma append_cons (c : ascii) (s t : string) :
  String c s +:+ t = String c (s +:+ t).
Proof. reflexivity. Qed.

Lemma length_append (s t : string) :
  String.length (s +:+ t) = (String.length s + String.length t)%nat.
Proof.
  induction s as [|c s IH]; [reflexivity|].
  rewrite append_cons. cbn [String.length]. now rewrite IH.
Qed.

Lemma append_inv_tail (s1 s2 t : string) : s1 +:+ t = s2 +:+ t -> s1 = s2.
Proof.
  revert s2. induction s1 as [|c s1 IH]; intros [|c2 s2] H.
  - reflexivity.
  - apply (f_equal String.length) in H. rewrite !length_append in H.
    cbn [String.length] in H. lia.
  - apply (f_equal String.length) in H. rewrite !length_append in H.
    cbn [String.length] in H. lia.
  - rewrite !append_cons in H. injection H as -> H. f_equal. now apply IH.
Qed.

Lemma memberName_inj obj m1 m2 : memberName obj m1 = memberName obj m2 -> m1 = m2.
Proof.
  unfold memberName. intros H. injection H as H.
  exact (append_inv_tail m1 m2 ("_" +:+ show_Z (id obj)) H).
Qed.

Lemma member_step_shown this obj nestColor acc k :
  member_step this obj nestColor acc k
  = if shown_key this obj k
    then _displayMember this (fst acc) obj (snd acc) k nestColor
    else acc.
Proof.
  unfold member_step, shown_key.
  destruct (not_underscored k && not_special k); [|reflexivity].
  now destruct (propFilter this k && negb (instanceof_Object (get obj k))).
Qed.

Lemma member_step_fold this obj nestColor (ks : list string) :
  forall infoContainer nextY,
    fold_left (member_step this obj nestColor) ks (infoContainer, nextY)
    = (infoContainer
       ++ map (fun k => Text (memberName obj k) nestColor)
            (List.filter (shown_key this obj) ks),
       nextY + lineHeight this * Z.of_nat (length (List.filter (shown_key this obj) ks))).
Proof.
  induction ks as [|k ks IH]; intros infoContainer nextY; cbn [fold_left List.filter].
  - cbn. rewrite app_nil_r. f_equal. lia.
  - rewrite member_step_shown. destruct (shown_key this obj k); cbn [fst snd].
    + unfold _displayMember, addChild. rewrite IH. cbn [map length].
      rewrite <- app_assoc. f_equal. lia.
    + apply IH.
Qed.

Lemma infoPanel_lines this obj nestColor :
  fst (infoPanel this obj nestColor)
  = Shape None None
    :: (if propFilter this "id" then [Text (memberName obj "id") nestColor] else [])
    ++ (if propFilter this "name" then [Text (memberName obj "name") nestColor] else [])
    ++ (if propFilter this "parentId"
        then [Text (named "si_parentId_" obj) nestColor] else [])
    ++ map (fun k => Text (memberName obj k) nestColor)
         (List.filter (shown_key this obj) (keys obj)).
Proof.
  unfold infoPanel, _displayMember, _displayParentId, addChild.
  destruct (propFilter this "id"), (propFilter this "name"),
    (propFilter this "parentId"); cbn [fst snd app];
    rewrite member_step_fold; reflexivity.
Qed.

(** C7 (amended). The info panel holds, after its background, the line of
    [id], the line of [name] and the parent id, each when enabled, and then
    the lines of the enabled keys among the node's own fields, in the order
    of the fields: [id] and [name] come first, in that order.  A structural
    key has a line in the panel only when the node itself has a field of that
    name which is enabled and holds no object. *)
Theorem infoPanel_order :
  forall (this : StageInspector) (obj : DisplayObject) (nestColor : option string),
    _drawInfoBackground (fst (infoPanel this obj nestColor))
    = Shape None (Some "#000000")
      :: (if propFilter this "id" then [Text (memberName obj "id") nestColor] else [])
      ++ (if propFilter this "name" then [Text (memberName obj "name") nestColor] else [])
      ++ (if propFilter this "parentId"
          then [Text (named "si_parentId_" obj) nestColor] else [])
      ++ map (fun k => Text (memberName obj k) nestColor)
           (List.filter (shown_key this obj) (keys obj))
    /\ (propFilter this "id" = true -> propFilter this "name" = true ->
          exists rest,
            _drawInfoBackground (fst (infoPanel this obj nestColor))
            = Shape None (Some "#000000")
              :: Text (memberName obj "id") nestColor
              :: Text (memberName obj "name") nestColor :: rest)
    /\ (forall k, In k structuralKeys ->
          In (Text (memberName obj k) nestColor)
             (_drawInfoBackground (fst (infoPanel this obj nestColor))) ->
          In k (keys obj) /\ propFilter this k = true
          /\ instanceof_Object (get obj k) = false).
Proof.
  intros this obj nestColor. rewrite infoPanel_lines. cbn [_drawInfoBackground].
  split; [reflexivity|]. split.
  - intros -> ->. eexists. reflexivity.
  - intros k Hk [Hbg|Hin]; [discriminate|].
    assert (Hne : k <> "id" /\ k <> "name" /\ k <> "parentId").
    { repeat split; intros ->; cbn in Hk; intuition discriminate. }
    destruct Hne as (Hid & Hname & Hparent).
    rewrite !in_app_iff in Hin. destruct Hin as [Hin|[Hin|[Hin|Hin]]].
    + destruct (propFilter this "id"); [|destruct Hin].
      destruct Hin as [Hin|[]]. apply (f_equal pname_of) in Hin.
      cbn [pname_of] in Hin. apply memberName_inj in Hin. congruence.
    + destruct (propFilter this "name"); [|destruct Hin].
      destruct Hin as [Hin|[]]. apply (f_equal pname_of) in Hin.
      cbn [pname_of] in Hin. apply memberName_inj in Hin. congruence.
    + destruct (propFilter this "parentId"); [|destruct Hin].
      destruct Hin as [Hin|[]]. apply (f_equal pname_of) in Hin.
      cbn [pname_of] in Hin.
      change (named "si_parentId_" obj) with (memberName obj "parentId") in Hin.
      apply memberName_inj in Hin. congruence.
    + apply in_map_iff in Hin as (k' & Heq & Hin').
      apply (f_equal pname_of) in Heq. cbn [pname_of] in Heq.
      apply memberName_inj in Heq. subst k'. apply List.filter_In in Hin' as [Hkeys Hshown].
      unfold shown_key in Hshown.
      apply andb_prop in Hshown as [_ Hshown].
      apply andb_prop in Hshown as [Hp Hobj].
      apply negb_true_iff in Hobj. auto.
Qed.

Lemma infoPanel_order_witness :
  (exists rest,
      _drawInfoBackground (fst (infoPanel sampleInspector sizedShape None))
      = Shape None (Some "#000000")
        :: Text (memberName sizedShape "id") None
        :: Text (memberName sizedShape "name") None :: rest)
  /\ (In "width" (keys sizedShape) /\ propFilter sampleInspector "width" = true
      /\ instanceof_Object (get sizedShape "width") = false).
Proof.
  split.
  - apply (proj1 (proj2 (infoPanel_order sampleInspector sizedShape None)));
      reflexivity.
  - apply (proj2 (proj2 (infoPanel_order sampleInspector sizedShape None)) "width").
    + vm_compute. tauto.
    + vm_compute. tauto.
Defined.

(** C7, as first stated, fails on a shape that carries a [width] field of its
    own: with the default property filters its info panel ends with a line
    for [width]. *)
Lemma width_field_in_info_panel :
  In "width" structuralKeys
  /\ List.last (annotate sampleInspector [] sizedShape 0) (Shape None None)
     = Container (Some "si_infoContainer_7")
         [Shape None (Some "#000000");
          Text (Some "si_id_7") (Some "#ff00ff");
          Text (Some "si_name_7") (Some "#ff00ff");
          Text (Some "si_x_7") (Some "#ff00ff");
          Text (Some "si_y_7") (Some "#ff00ff");
          Text (Some "si_width_7") (Some "#ff00ff")]
  /\ memberName sizedShape "width" = Some "si_width_7".
Proof.
  split; [vm_compute; tauto|]. split; vm_compute; reflexivity.
Qed.

(** ** Leaving out the overlay layer *)

Lemma updateDisplay_fold this (c : DisplayObject) (cs : list DisplayObject) :
  forall acc,
    fold_left
      (fun container child =>
         if negb (same_object child c)
         then _addObjectToContainer this container child 0
         else container) cs acc
    = acc
      ++ flat_map (fun child => _addObjectToContainer this [] child 0)
           (List.filter (fun child => negb (same_object child c)) cs).
Proof.
  induction cs as [|x cs IH]; intros acc; cbn [fold_left List.filter].
  - cbn. now rewrite app_nil_r.
  - rewrite IH. destruct (negb (same_object x c)); [|reflexivity].
    rewrite addObjectToContainer_app. cbn [flat_map].
    now rewrite <- app_assoc.
Qed.

Lemma dumpObject_eq this obj label expand :
  _dumpObject this obj label expand
  = if same_object (_container this) obj then []
    else
      [ if expand then group label else groupCollapsed label; log_ref (ref obj) ]
      ++ dumpFields obj
      ++ match children obj with
         | Some cs =>
             [ group "Children:" ]
             ++ flat_map
                  (fun child =>
                     _dumpObject this child (_getObjectDisplayName child) false) cs
             ++ [ groupEnd ]
         | None => [ log "Children: None" ]
         end
      ++ [ groupEnd ].
Proof. destruct obj as [r c i n f [cs|] b fb cf]; reflexivity. Qed.

Lemma dumpFields_no_ref obj r : ~ In (log_ref r) (dumpFields obj).
Proof. unfold dumpFields. cbn [In]. intuition discriminate. Qed.

(** No call of [_dumpObject] writes the reference line of the overlay layer. *)
Lemma dumpObject_skips_container this obj :
  forall label expand,
    ~ In (log_ref (ref (_container this))) (_dumpObject this obj label expand).
Proof.
  induction obj as [r c i n f b fb cf | r c i n f cs b fb cf IH]
    using DisplayObject_ind; intros label expand; rewrite dumpObject_eq;
    unfold same_object; cbn [ref children];
    (destruct (Nat.eqb_spec (ref (_container this)) r) as [|Hne];
     [intros []|]);
    intros H; rewrite !in_app_iff in H; cbn [In] in H.
  - destruct H as [[H|[H|[]]]|[H|[[H|[]]|[H|[]]]]]; try discriminate.
    + now destruct expand.
    + injection H as H. congruence.
    + now apply dumpFields_no_ref in H.
  - destruct H as [[H|[H|[]]]|[H|[[[H|[]]|[H|[H|[]]]]|[H|[]]]]];
      try discriminate.
    + now destruct expand.
    + injection H as H. congruence.
    + now apply dumpFields_no_ref in H.
    + apply in_flat_map in H as (x & Hx & Hin).
      rewrite List.Forall_forall in IH. exact (IH x Hx _ _ Hin).
Qed.

Lemma same_object_self c : same_object c c = true.
Proof. unfold same_object. apply Nat.eqb_refl. Qed.

Lemma dumpObject_layer this obj label expand :
  same_object (_container this) obj = true ->
  _dumpObject this obj label expand = [].
Proof. intros H. now rewrite dumpObject_eq, H. Qed.

Lemma dumpObject_children_but_layer this (cs : list DisplayObject) :
  flat_map (fun child => _dumpObject this child (_getObjectDisplayName child) false) cs
  = flat_map (fun child => _dumpObject this child (_getObjectDisplayName child) false)
      (List.filter (fun child => negb (same_object (_container this) child)) cs).
Proof.
  induction cs as [|c cs IH]; cbn [flat_map List.filter]; [reflexivity|].
  destruct (same_object (_container this) c) eqn:Hc; cbn [negb flat_map].
  - now rewrite (dumpObject_layer this c _ _ Hc).
  - now rewrite IH.
Qed.

(** C2. The rebuilt overlay is made of the contributions of the children of
    the stage other than the overlay layer, and of nothing else: the layer,
    when it is among the children, is passed over and adds no annotation.
    No dump writes a report for the layer: [_dumpObject] writes nothing at
    all for it, neither a group nor a line, so that the reports under the
    children of any node are those of its children other than the layer; the
    dump rooted at the stage completes, and neither it nor any other call of
    [_dumpObject] logs the reference of the layer. *)
Theorem overlay_layer_excluded :
  forall (this : StageInspector),
    overlay (_updateDisplay this)
    = flat_map (fun child => _addObjectToContainer this [] child 0)
        (List.filter (fun child => negb (same_object child (_container this)))
           (childList (_stage this)))
    /\ (exists out, dump this None = Completed out
                    /\ ~ In (log_ref (ref (_container this))) out)
    /\ (forall obj label expand,
          ~ In (log_ref (ref (_container this))) (_dumpObject this obj label expand))
    /\ (forall label expand, _dumpObject this (_container this) label expand = [])
    /\ (forall obj label expand,
          same_object (_container this) obj = true ->
          _dumpObject this obj label expand = [])
    /\ (forall obj label expand,
          same_object (_container this) obj = false ->
          _dumpObject this obj label expand
          = [ if expand then group label else groupCollapsed label;
              log_ref (ref obj) ]
            ++ dumpFields obj
            ++ match children obj with
               | Some cs =>
                   [ group "Children:" ]
                   ++ flat_map
                        (fun child =>
                           _dumpObject this child (_getObjectDisplayName child) false)
                        (List.filter
                           (fun child => negb (same_object (_container this) child))
                           cs)
                   ++ [ groupEnd ]
               | None => [ log "Children: None" ]
               end
            ++ [ groupEnd ]).
Proof.
  intros this. split; [|split; [|split; [|split; [|split]]]].
  - unfold _updateDisplay. destruct this; cbn [overlay set_overlay _stage _container].
    now rewrite updateDisplay_fold.
  - eexists. split; [reflexivity|]. apply dumpObject_skips_container.
  - intros obj. apply dumpObject_skips_container.
  - intros label expand. apply dumpObject_layer, same_object_self.
  - intros obj label expand. apply dumpObject_layer.
  - intros obj label expand Hobj. rewrite dumpObject_eq, Hobj.
    destruct (children obj) as [cs|]; [|reflexivity].
    now rewrite <- dumpObject_children_but_layer.
Qed.

Lemma overlay_layer_excluded_witness :
  _dumpObject (show sampleInspector None) (newContainer 100 99)
    "[Container (name=si_ui_container)] (id=99)" false = []
  /\ exists rest,
       _dumpObject (show sampleInspector None) (_stage (show sampleInspector None))
         "Stage (id=1)" true
       = [ group "Stage (id=1)"; log_ref 0%nat ] ++ rest.
Proof.
  split.
  - apply (proj1 (proj2 (proj2 (proj2 (proj2
             (overlay_layer_excluded (show sampleInspector None))))))).
    reflexivity.
  - eexists.
    apply (proj2 (proj2 (proj2 (proj2 (proj2
             (overlay_layer_excluded (show sampleInspector None))))))).
    reflexivity.
Defined.

(** ** The dump of entries that match nothing *)

Lemma dump_unmatched_first this (obj : entry) (rest : list entry) :
  resolve this obj = None ->
  dump this (Some (obj :: rest)) = Faulted [ group "Display objects" ].
Proof. intros H. unfold dump. cbn [dump_forEach]. now rewrite H. Qed.

(** C1. On the sample stage, where no node has id 42, [dump([42])] does not
    complete: the lookup yields null, the display name of null cannot be
    computed, and the TypeError escapes after the opening of the group.  No
    report with a null reference is written. *)
Theorem dump_unmatched_id_faults :
  getObjectById sampleInspector 42 = None
  /\ dump sampleInspector (Some [ENum 42]) = Faulted [ group "Display objects" ].
Proof. split; vm_compute; reflexivity. Qed.

(** ** Hiding the overlay *)

Lemma filter_none_Forall {A : Type} (f : A -> bool) (l : list A) :
  length (List.filter f l) = 0%nat -> Forall (fun x => f x = false) l.
Proof.
  induction l as [|a l IH]; cbn [List.filter]; intros H; [constructor|].
  destruct (f a) eqn:Ha; [discriminate|]. constructor; auto.
Qed.

Lemma removeChild_absent cs x :
  Forall (fun c => same_object c x = false) cs -> removeChild cs x = cs.
Proof.
  induction 1 as [|c cs Hc _ IH]; cbn [removeChild]; [reflexivity|].
  now rewrite Hc, IH.
Qed.

Lemma removeChild_once cs x :
  (length (List.filter (fun c => same_object c x) cs) <= 1)%nat ->
  Forall (fun c => same_object c x = false) (removeChild cs x).
Proof.
  induction cs as [|c cs IH]; cbn [removeChild List.filter]; intros H;
    [constructor|].
  destruct (same_object c x) eqn:Hc.
  - apply (filter_none_Forall (fun c => same_object c x)). cbn [length] in H. lia.
  - constructor; auto.
Qed.

Lemma occurrences_removeChild_le cs x y :
  (length (List.filter (fun c => same_object c x) (removeChild cs y))
   <= length (List.filter (fun c => same_object c x) cs))%nat.
Proof.
  induction cs as [|c cs IH]; cbn [removeChild List.filter]; [lia|].
  destruct (same_object c y).
  - destruct (same_object c x); cbn [length]; lia.
  - cbn [List.filter]. destruct (same_object c x); cbn [length]; lia.
Qed.

Lemma occurrences_removeChild_same cs x y :
  same_object y x = true ->
  length (List.filter (fun c => same_object c x) (removeChild cs y))
  = Nat.pred (length (List.filter (fun c => same_object c x) cs)).
Proof.
  unfold same_object. rewrite Nat.eqb_eq. intros Hyx.
  induction cs as [|c cs IH]; cbn [removeChild List.filter]; [reflexivity|].
  unfold same_object in *. rewrite Hyx.
  destruct (Nat.eqb (ref c) (ref x)) eqn:Hc; [reflexivity|].
  cbn [List.filter]. rewrite Hc. exact IH.
Qed.

Lemma occurrences_addChild cs x y :
  (length (List.filter (fun c => same_object c x) cs) <= 1)%nat ->
  (length (List.filter (fun c => same_object c x) (stage_addChild cs y)) <= 1)%nat.
Proof.
  intros H. unfold stage_addChild.
  rewrite List.filter_app, length_app. cbn [List.filter].
  destruct (same_object y x) eqn:Hy; cbn [length].
  - rewrite (occurrences_removeChild_same cs x y Hy). lia.
  - pose proof (occurrences_removeChild_le cs x y). lia.
Qed.

Lemma hide_stage this :
  _stage (hide this)
  = set_children (_stage this) (removeChild (childList (_stage this)) (_container this))
  /\ _container (hide this) = _container this.
Proof. destruct this as [st pf nc ct [|] fl ov ds lh]; split; reflexivity. Qed.

Lemma show_stage this filters :
  _stage (show this filters)
  = set_children (_stage this)
      (stage_addChild (removeChild (childList (_stage this)) (_container this))
         (_container this))
  /\ _container (show this filters) = _container this.
Proof. destruct this as [st pf nc ct [|] fl ov ds lh]; split; reflexivity. Qed.

Lemma set_updateOnDraw_stage this val :
  _stage (set_updateOnDraw this val) = _stage this
  /\ _container (set_updateOnDraw this val) = _container this.
Proof.
  unfold set_updateOnDraw.
  destruct (showing this && negb (Bool.eqb val (_updateOnDraw this)));
    [destruct (_updateOnDraw this)|]; split; reflexivity.
Qed.

Lemma on_drawstart_stage this :
  _stage (on_drawstart this) = _stage this
  /\ _container (on_drawstart this) = _container this.
Proof. unfold on_drawstart. destruct (drawstart this); split; reflexivity. Qed.

(** X12. Every state an inspector goes through has the overlay layer at most
    once among the children of the stage. *)
Lemma reachable_attached_once this : reachable this -> attached_once this.
Proof.
  unfold attached_once.
  induction 1 as [stage r i lh Hfresh | this filters _ IH | this _ IH
                 | this val _ IH | this _ IH | this child _ IH].
  - cbn [constructor _stage _container].
    induction Hfresh as [|c cs Hc _ IHf]; cbn [List.filter length]; [lia|].
    change (same_object c (newContainer r i)) with (Nat.eqb (ref c) r).
    rewrite Hc. exact IHf.
  - destruct (show_stage this filters) as [-> ->].
    apply occurrences_addChild.
    etransitivity; [apply occurrences_removeChild_le|exact IH].
  - destruct (hide_stage this) as [-> ->].
    etransitivity; [apply occurrences_removeChild_le|exact IH].
  - destruct (set_updateOnDraw_stage this val) as [-> ->]. exact IH.
  - destruct (on_drawstart_stage this) as [-> ->]. exact IH.
  - now apply occurrences_addChild.
Qed.

(** With the overlay layer at most once among the children of the stage, as
    in every state an inspector goes through, a second [hide()] changes
    nothing of what the first one left: the overlay layer is emptied and is
    no child of the stage.  The redraw subscription is gone when
    [updateOnDraw] is true and is left as it was otherwise.  On a hidden
    inspector (layer emptied and detached, no subscription) [hide()] changes
    nothing. *)
Theorem hide_idempotent :
  forall (this : StageInspector),
    attached_once this ->
    hide (hide this) = hide this
    /\ overlay (hide this) = []
    /\ Forall (fun c => same_object c (_container this) = false)
         (childList (_stage (hide this)))
    /\ (_updateOnDraw this = true -> drawstart (hide this) = false)
    /\ (Hidden this -> children (_stage this) <> None -> hide this = this)
    /\ drawstart (hide this) = drawstart this && negb (_updateOnDraw this).
Proof.
  intros this Honce. unfold attached_once in Honce.
  pose proof (removeChild_once _ _ Honce) as Hgone.
  destruct this as [st pf nc ct uod fl ov ds lh].
  cbn [_stage _container] in *. split; [|split; [|split; [|split; [|split]]]];
    [| | | | |destruct uod, ds; reflexivity].
  - unfold hide. destruct uod;
      cbn [_updateOnDraw set_drawstart set_overlay set_stage _stage _container
           propFilters nestColors _filters overlay drawstart lineHeight];
      unfold set_children, childList;
      cbn [ref className id name fields children getBounds frameBounds currentFrame];
      fold (childList st); now rewrite (removeChild_absent _ _ Hgone).
  - now destruct uod.
  - destruct uod; exact Hgone.
  - cbn [_updateOnDraw]. now intros ->.
  - intros (Hov & Habsent & Hds) Hchildren.
    cbn [overlay _stage _container drawstart] in *. subst ov ds.
    unfold hide.
    assert (Hst : set_children st (removeChild (childList st) ct) = st).
    { rewrite (removeChild_absent _ _ Habsent). unfold set_children, childList.
      destruct st as [r c i n f [cs|] b fb cf]; [reflexivity|].
      now destruct Hchildren. }
    destruct uod;
      cbn [_updateOnDraw set_drawstart set_overlay set_stage _stage _container
           propFilters nestColors _filters overlay drawstart lineHeight];
      now rewrite Hst.
Qed.

Lemma hide_idempotent_witness :
  hide (hide (show sampleInspector None)) = hide (show sampleInspector None)
  /\ drawstart (hide (show sampleInspector None)) = false.
Proof.
  assert (H : attached_once (show sampleInspector None)).
  { vm_compute. lia. }
  split.
  - apply (proj1 (hide_idempotent (show sampleInspector None) H)).
  - apply (proj1 (proj2 (proj2 (proj2 (hide_idempotent (show sampleInspector None) H))))).
    reflexivity.
Defined.

(** C6. After the application has put a display object on top of the shown
    overlay and live refresh has been switched off, [hide()] does not leave
    the inspector without a redraw subscription: the state is one an
    inspector goes through, [updateOnDraw] is false, [_updateDisplay] is
    still subscribed after [hide()], also after a second [hide()], and the
    next redraw fills the detached overlay layer again. *)
Theorem hide_leaves_subscription :
  reachable leakedInspector
  /\ _updateOnDraw leakedInspector = false
  /\ drawstart (hide leakedInspector) = true
  /\ drawstart (hide (hide leakedInspector)) = true
  /\ overlay (hide leakedInspector) = []
  /\ showing (hide leakedInspector) = false
  /\ length (overlay (on_drawstart (hide leakedInspector))) = 27%nat.
Proof.
  split; [|repeat split; vm_compute; reflexivity].
  unfold leakedInspector, sampleInspector.
  apply reach_updateOnDraw, reach_addChild, reach_show, reach_new.
  repeat constructor.
Qed.

(** ** The sample scene at work *)

Example sample_search_by_name :
  option_map ref (getObjectByName sampleInspector "b") = Some 3%nat.
Proof. vm_compute. reflexivity. Qed.

Example sample_search_all_outermost :
  map ref (getObjectsByCustomSearch sampleInspector (fun o => 2 <=? id o))
  = [1%nat; 4%nat].
Proof. vm_compute. reflexivity. Qed.

Example sample_overlay_filtered :
  map pname_of
    (overlay (_updateDisplay
                (show (set_updateOnDraw sampleInspector false)
                   (Some [EStr "a"; ENum 2]))))
  = [Some "si_bounds_3"; Some "si_boundsPos_3"; Some "si_posMarker_3";
     Some "si_pos_3"; Some "si_posMarker_3"; Some "si_regPosText_3";
     Some "si_width_3"; Some "si_height_3"; Some "si_infoContainer_3"].
Proof. vm_compute. reflexivity. Qed.

Example sample_show_then_hide :
  showing (show sampleInspector None) = true
  /\ showing (hide (show sampleInspector None)) = false.
Proof. split; vm_compute; reflexivity. Qed.

(** * Further properties of the code *)

(** ** Search *)

Lemma head_app_first {A : Type} (l1 l2 : list A) :
  List.head (l1 ++ l2)
  = match List.head l1 with Some x => Some x | None => List.head l2 end.
Proof. destruct l1; reflexivity. Qed.

Lemma preorder_eq obj :
  preorder obj = obj :: flat_map preorder (childList obj).
Proof. destruct obj as [r c i n f [cs|] b fb cf]; reflexivity. Qed.

(** X1. The single-match search returns a node only if the node satisfies
    the predicate and belongs to the searched tree, and it returns null
    exactly when no node of the tree satisfies the predicate. *)
Theorem searchForObject_found_iff :
  forall (func : DisplayObject -> bool) (obj : DisplayObject),
    (forall o, _searchForObject func obj = Some o ->
               func o = true /\ In o (preorder obj))
    /\ (_searchForObject func obj = None
        <-> forall n, In n (preorder obj) -> func n = false).
Proof.
  intros func obj. rewrite searchForObject_find. split.
  - intros o H. apply List.find_some in H. tauto.
  - split.
    + intros H n Hn. exact (List.find_none _ _ H n Hn).
    + intros H. destruct (List.find func (preorder obj)) as [o|] eqn:Hf;
        [|reflexivity].
      apply List.find_some in Hf as [Hin Ho]. rewrite (H o Hin) in Ho.
      discriminate.
Qed.

Lemma searchForObject_found_iff_witness :
  has_name "b" shapeB = true /\ In shapeB (preorder sampleStage).
Proof.
  apply (proj1 (searchForObject_found_iff (has_name "b") sampleStage) shapeB).
  vm_compute. reflexivity.
Defined.

Lemma find_head_flat_map func (cs : list DisplayObject) :
  Forall (fun c => List.find func (preorder c)
                   = List.head (_searchForObjects func c)) cs ->
  List.find func (flat_map preorder cs)
  = List.head (flat_map (_searchForObjects func) cs).
Proof.
  induction 1 as [|c cs Hc _ IH]; cbn [flat_map]; [reflexivity|].
  now rewrite find_app_first, head_app_first, Hc, IH.
Qed.

(** X2. The single-match search returns the first element of what the
    multi-match search returns on the same tree and predicate, and null when
    that array is empty. *)
Theorem searchForObject_head_of_all :
  forall (func : DisplayObject -> bool) (obj : DisplayObject),
    _searchForObject func obj = List.head (_searchForObjects func obj).
Proof.
  intros func obj. rewrite searchForObject_find.
  induction obj as [r c i n f b fb cf | r c i n f cs b fb cf IH]
    using DisplayObject_ind;
    rewrite preorder_eq, searchForObjects_eq; unfold childList;
    cbn [children List.find flat_map]; destruct (func _); try reflexivity.
  now apply find_head_flat_map.
Qed.

(** X3. Every node the multi-match search returns satisfies the predicate
    and belongs to the tree; and every node of the tree that satisfies the
    predicate is a returned node or lies below one. *)
Theorem searchForObjects_members :
  forall (func : DisplayObject -> bool) (root : DisplayObject),
    (forall o, In o (_searchForObjects func root) ->
               func o = true /\ In o (preorder root))
    /\ (forall n, In n (preorder root) -> func n = true ->
          exists r, In r (_searchForObjects func root) /\ In n (preorder r)).
Proof.
  intros func root.
  induction root as [r c i n f b fb cf | r c i n f cs b fb cf IH]
    using DisplayObject_ind;
    rewrite preorder_eq, searchForObjects_eq; unfold childList;
    cbn [children flat_map]; destruct (func _) eqn:Hroot.
  - split.
    + intros o [<-|[]]. split; [exact Hroot|now left].
    + intros m Hm _. eexists. split; [now left|]. rewrite preorder_eq. exact Hm.
  - split; [intros o []|]. intros m [<-|[]] Hm. congruence.
  - split.
    + intros o [<-|[]]. split; [exact Hroot|now left].
    + intros m Hm _. eexists. split; [now left|]. rewrite preorder_eq. exact Hm.
  - rewrite List.Forall_forall in IH. split.
    + intros o Ho. apply in_flat_map in Ho as (x & Hx & Ho).
      destruct (proj1 (IH x Hx) o Ho) as [Hf Hin]. split; [exact Hf|].
      right. apply in_flat_map. eauto.
    + intros m [<-|Hm] Hf; [congruence|].
      apply in_flat_map in Hm as (x & Hx & Hm).
      destruct (proj2 (IH x Hx) m Hm Hf) as (t & Ht & Hmt).
      exists t. split; [|exact Hmt]. apply in_flat_map. eauto.
Qed.

Lemma searchForObjects_members_witness :
  (2 <=? id groupG) = true /\ In groupG (preorder sampleStage).
Proof.
  apply (proj1 (searchForObjects_members (fun o => 2 <=? id o) sampleStage) groupG).
  vm_compute. tauto.
Defined.

(** X4. [getObjectById] returns the first node in depth-first pre-order
    whose id is the argument, the stage itself when the stage has that id;
    what it returns has that id, and it returns null exactly when no node of
    the stage tree has it. *)
Theorem getObjectById_first :
  forall (this : StageInspector) (i : Z),
    getObjectById this i
    = List.find (fun o => Z.eqb (id o) i) (preorder (_stage this))
    /\ (id (_stage this) = i -> getObjectById this i = Some (_stage this))
    /\ (forall o, getObjectById this i = Some o -> id o = i)
    /\ (getObjectById this i = None
        <-> forall n, In n (preorder (_stage this)) -> id n <> i).
Proof.
  intros this i. unfold getObjectById. rewrite searchForObject_find.
  split; [reflexivity|]. split; [|split].
  - intros Hid. rewrite preorder_eq. cbn [List.find].
    apply Z.eqb_eq in Hid. now rewrite Hid.
  - intros o H. apply List.find_some in H as [_ H]. now apply Z.eqb_eq in H.
  - split.
    + intros H n Hn. apply (List.find_none _ _ H) in Hn. now apply Z.eqb_neq in Hn.
    + intros H. destruct (List.find _ _) as [o|] eqn:Hf; [|reflexivity].
      apply List.find_some in Hf as [Hin Ho]. apply Z.eqb_eq in Ho.
      now destruct (H o Hin).
Qed.

Lemma getObjectById_first_witness :
  getObjectById sampleInspector 1 = Some sampleStage
  /\ id shapeB = 4.
Proof.
  split.
  - apply (proj1 (proj2 (getObjectById_first sampleInspector 1))). reflexivity.
  - apply (proj1 (proj2 (proj2 (getObjectById_first sampleInspector 4))) shapeB).
    vm_compute. reflexivity.
Defined.

(** ** Configuration and the build *)

Lemma annotate_same_config a b container obj nestLevel :
  same_config a b ->
  annotate a container obj nestLevel = annotate b container obj nestLevel.
Proof.
  destruct a as [st pf nc ct uod fl ov ds lh], b as [st' pf' nc' ct' uod' fl' ov' ds' lh'].
  intros (Hf & Hp & Hn & Hl). cbn [_filters propFilters nestColors lineHeight] in *.
  subst. reflexivity.
Qed.

Lemma addObjectToContainer_same_config a b obj :
  same_config a b ->
  forall container nestLevel,
    _addObjectToContainer a container obj nestLevel
    = _addObjectToContainer b container obj nestLevel.
Proof.
  intros Hab.
  induction obj as [r c i n f bd fb cf | r c i n f cs bd fb cf IH]
    using DisplayObject_ind; intros container nestLevel;
    rewrite (addObjectToContainer_eq a), (addObjectToContainer_eq b);
    unfold childList; cbn [children flat_map];
    rewrite (annotate_same_config a b _ _ _ Hab); [reflexivity|].
  f_equal. f_equal. apply flat_map_ext_Forall.
  eapply Forall_impl; [exact IH|]. intros x Hx. apply Hx.
Qed.

Lemma updateDisplay_overlay this :
  overlay (_updateDisplay this)
  = flat_map (fun child => _addObjectToContainer this [] child 0) (sceneChildren this).
Proof.
  unfold _updateDisplay, sceneChildren.
  destruct this; cbn [overlay set_overlay _stage _container].
  now rewrite updateDisplay_fold.
Qed.

Lemma build_same_config a b (cs : list DisplayObject) :
  same_config a b ->
  flat_map (fun child => _addObjectToContainer a [] child 0) cs
  = flat_map (fun child => _addObjectToContainer b [] child 0) cs.
Proof.
  intros Hab. apply flat_map_ext_Forall. rewrite List.Forall_forall.
  intros x _. now apply addObjectToContainer_same_config.
Qed.

(** ** The scene under show and hide *)

Lemma scene_removeChild cs c :
  List.filter (fun child => negb (same_object child c)) (removeChild cs c)
  = List.filter (fun child => negb (same_object child c)) cs.
Proof.
  induction cs as [|x cs IH]; cbn [removeChild List.filter]; [reflexivity|].
  destruct (same_object x c) eqn:Hx; cbn [negb]; [reflexivity|].
  cbn [List.filter]. rewrite Hx. cbn [negb]. now rewrite IH.
Qed.

Lemma same_object_refl c : same_object c c = true.
Proof. unfold same_object. apply Nat.eqb_refl. Qed.

Lemma scene_addChild cs c :
  List.filter (fun child => negb (same_object child c)) (stage_addChild cs c)
  = List.filter (fun child => negb (same_object child c)) cs.
Proof.
  unfold stage_addChild. rewrite List.filter_app, scene_removeChild.
  cbn [List.filter]. rewrite same_object_refl. cbn [negb]. apply app_nil_r.
Qed.

Lemma childList_set_children obj cs : childList (set_children obj cs) = cs.
Proof. reflexivity. Qed.

Lemma showing_last this (l : list DisplayObject) (x : DisplayObject) :
  childList (_stage this) = l ++ [x] ->
  showing this = same_object x (_container this).
Proof.
  unfold showing. intros ->. destruct l as [|y l]; [reflexivity|].
  cbn [app]. f_equal.
  change (y :: l ++ [x]) with ((y :: l) ++ [x]).
  pose proof (List.last_last (y :: l) x y) as H. cbn [app] in H.
  cbn [List.last] in H. destruct (l ++ [x]) eqn:Hl.
  - now destruct l.
  - exact H.
Qed.

Lemma last_In {A : Type} (l : list A) :
  forall d : A, In (List.last l d) (d :: l).
Proof.
  induction l as [|x l IH]; intros d; cbn [List.last]; [now left|].
  destruct l as [|y l]; [right; now left|].
  destruct (IH d) as [H|H]; [left; exact H|right; right; exact H].
Qed.

Lemma showing_absent this :
  Forall (fun c => same_object c (_container this) = false) (childList (_stage this)) ->
  showing this = false.
Proof.
  unfold showing. intros H. destruct (childList (_stage this)) as [|c cs];
    [reflexivity|].
  rewrite List.Forall_forall in H. apply H, last_In.
Qed.

Lemma removeChild_app_last cs c :
  Forall (fun x => same_object x c = false) cs ->
  removeChild (cs ++ [c]) c = cs.
Proof.
  induction 1 as [|x cs Hx _ IH]; cbn [app removeChild].
  - now rewrite same_object_refl.
  - now rewrite Hx, IH.
Qed.

(** X5. After [show(filters)] the overlay layer is the last child of the
    stage, so [showing] is true, whatever the state before. *)
Theorem show_showing :
  forall (this : StageInspector) (filters : option (list entry)),
    showing (show this filters) = true
    /\ exists cs, childList (_stage (show this filters)) = cs ++ [_container this].
Proof.
  intros this filters. destruct (show_stage this filters) as [Hst Hct].
  assert (H : childList (_stage (show this filters))
              = removeChild (removeChild (childList (_stage this)) (_container this))
                  (_container this) ++ [_container this]).
  { rewrite Hst. reflexivity. }
  split; [|eexists; exact H].
  rewrite (showing_last _ _ _ H), Hct. apply same_object_refl.
Qed.

(** X6. With the overlay layer at most once among the children of the stage,
    [hide()] leaves an inspector that is not showing. *)
Theorem hide_not_showing :
  forall (this : StageInspector),
    attached_once this -> showing (hide this) = false.
Proof.
  intros this Honce. apply showing_absent.
  destruct (hide_stage this) as [-> ->]. rewrite childList_set_children.
  now apply removeChild_once.
Qed.

Lemma hide_not_showing_witness :
  showing (hide (show sampleInspector None)) = false.
Proof.
  apply (hide_not_showing (show sampleInspector None)). vm_compute. lia.
Defined.

Lemma show_unfold this filters :
  show this filters
  = let scene := removeChild (childList (_stage this)) (_container this) in
    let hidden :=
      mkStageInspector (set_children (_stage this) scene) (propFilters this)
        (nestColors this) (_container this) (_updateOnDraw this) filters []
        (drawstart this) (lineHeight this) in
    mkStageInspector
      (set_children (_stage this) (stage_addChild scene (_container this)))
      (propFilters this) (nestColors this) (_container this) (_updateOnDraw this)
      filters
      (if _updateOnDraw this then [] else overlay (_updateDisplay hidden))
      (if _updateOnDraw this then true else drawstart this)
      (lineHeight this).
Proof. destruct this as [st pf nc ct [|] fl ov ds lh]; reflexivity. Qed.

(** X7. With the overlay layer at most once among the children of the stage,
    a second [show] with the same filters on an unchanged scene changes
    nothing: it leaves the same stage, overlay and subscription as the first. *)
Theorem show_idempotent :
  forall (this : StageInspector) (filters : option (list entry)),
    attached_once this ->
    show (show this filters) filters = show this filters.
Proof.
  intros this filters Honce.
  pose proof (removeChild_once _ _ Honce) as Hgone.
  rewrite (show_unfold (show this filters)). rewrite !(show_unfold this).
  cbn zeta.
  cbn [_stage _container propFilters nestColors _updateOnDraw drawstart lineHeight].
  rewrite !childList_set_children.
  assert (Hscene : removeChild
                     (stage_addChild
                        (removeChild (childList (_stage this)) (_container this))
                        (_container this)) (_container this)
                   = removeChild (childList (_stage this)) (_container this)).
  { unfold stage_addChild. rewrite (removeChild_absent _ _ Hgone).
    now apply removeChild_app_last. }
  rewrite Hscene.
  destruct this as [st pf nc ct [|] fl ov ds lh]; reflexivity.
Qed.

Lemma show_idempotent_witness :
  show (show (set_updateOnDraw sampleInspector false) (Some [EStr "a"])) (Some [EStr "a"])
  = show (set_updateOnDraw sampleInspector false) (Some [EStr "a"]).
Proof.
  apply (show_idempotent (set_updateOnDraw sampleInspector false)).
  vm_compute. lia.
Defined.

Lemma updateDisplay_unfold this :
  _updateDisplay this
  = set_overlay this
      (flat_map (fun child => _addObjectToContainer this [] child 0)
         (sceneChildren this)).
Proof.
  unfold _updateDisplay, sceneChildren. now rewrite updateDisplay_fold.
Qed.

Lemma same_config_set_overlay this o : same_config (set_overlay this o) this.
Proof. destruct this; repeat split. Qed.

(** X8. [_updateDisplay] rebuilds the overlay from the scene and the
    configuration alone: what the overlay held before has no influence, a
    second rebuild of an unchanged scene changes nothing, and so neither does
    a second redraw notification. *)
Theorem updateDisplay_rebuild_pure :
  forall (this : StageInspector),
    (forall old, overlay (_updateDisplay (set_overlay this old))
                 = overlay (_updateDisplay this))
    /\ _updateDisplay (_updateDisplay this) = _updateDisplay this
    /\ on_drawstart (on_drawstart this) = on_drawstart this.
Proof.
  intros this.
  assert (Hold : forall old, _updateDisplay (set_overlay this old) = _updateDisplay this).
  { intros old. rewrite !updateDisplay_unfold.
    rewrite (build_same_config _ this _ (same_config_set_overlay this old)).
    destruct this; reflexivity. }
  split; [intros old; now rewrite Hold|].
  assert (Htwice : _updateDisplay (_updateDisplay this) = _updateDisplay this).
  { rewrite (updateDisplay_unfold this) at 1. apply Hold. }
  split; [exact Htwice|].
  unfold on_drawstart. destruct (drawstart this) eqn:Hd; [|now rewrite Hd].
  replace (drawstart (_updateDisplay this)) with true
    by (destruct this; cbn in *; congruence).
  exact Htwice.
Qed.

Lemma sceneChildren_show this filters :
  sceneChildren (show this filters) = sceneChildren this.
Proof.
  unfold sceneChildren. destruct (show_stage this filters) as [-> ->].
  rewrite childList_set_children, scene_addChild. apply scene_removeChild.
Qed.

(** X9. The children of the stage that belong to the application are left as
    they are, in number and in order, by [show], [hide], the [updateOnDraw]
    setter and the redraw handler. *)
Theorem scene_untouched :
  forall (this : StageInspector),
    (forall filters, sceneChildren (show this filters) = sceneChildren this)
    /\ sceneChildren (hide this) = sceneChildren this
    /\ (forall val, sceneChildren (set_updateOnDraw this val) = sceneChildren this)
    /\ sceneChildren (on_drawstart this) = sceneChildren this.
Proof.
  intros this. unfold sceneChildren. split; [|split; [|split]].
  - intros filters. fold (sceneChildren (show this filters)).
    fold (sceneChildren this). apply sceneChildren_show.
  - destruct (hide_stage this) as [-> ->].
    rewrite childList_set_children. apply scene_removeChild.
  - intros val. now destruct (set_updateOnDraw_stage this val) as [-> ->].
  - now destruct (on_drawstart_stage this) as [-> ->].
Qed.

Lemma show_same_config this filters :
  same_config (show this filters) (set_filters this filters).
Proof. rewrite show_unfold. destruct this; repeat split. Qed.

(** X10. What [show(filters)] displays is the build of the scene under the
    new filters, whatever filters were set before.  In live mode [show]
    subscribes the redraw handler and leaves the overlay empty until the
    first redraw, which builds it; otherwise [show] builds it at once and
    leaves the subscription as it was. *)
Theorem show_builds_scene :
  forall (this : StageInspector) (filters : option (list entry)),
    let built :=
      flat_map (fun child => _addObjectToContainer (set_filters this filters) [] child 0)
        (sceneChildren this) in
    (_updateOnDraw this = true ->
       drawstart (show this filters) = true
       /\ overlay (show this filters) = []
       /\ overlay (on_drawstart (show this filters)) = built)
    /\ (_updateOnDraw this = false ->
          drawstart (show this filters) = drawstart this
          /\ overlay (show this filters) = built).
Proof.
  intros this filters built. subst built. split; intros Huod.
  - assert (Hds : drawstart (show this filters) = true).
    { rewrite show_unfold. cbn zeta. cbn [drawstart]. now rewrite Huod. }
    split; [exact Hds|]. split.
    + rewrite show_unfold. cbn zeta. cbn [overlay]. now rewrite Huod.
    + unfold on_drawstart. rewrite Hds, updateDisplay_overlay.
      rewrite sceneChildren_show.
      apply build_same_config, show_same_config.
  - rewrite show_unfold. cbn zeta. cbn [drawstart overlay]. rewrite Huod.
    split; [reflexivity|]. rewrite updateDisplay_overlay.
    replace (sceneChildren _) with (sceneChildren this).
    + apply build_same_config. destruct this; repeat split.
    + unfold sceneChildren. cbn [_stage _container].
      rewrite childList_set_children. symmetry. apply scene_removeChild.
Qed.

Lemma show_builds_scene_witness :
  drawstart (show sampleInspector (Some [ENum 3])) = true
  /\ overlay (show (set_updateOnDraw sampleInspector false) (Some [ENum 3]))
     = flat_map
         (fun child =>
            _addObjectToContainer
              (set_filters (set_updateOnDraw sampleInspector false) (Some [ENum 3]))
              [] child 0)
         (sceneChildren (set_updateOnDraw sampleInspector false)).
Proof.
  split.
  - apply (proj1 (show_builds_scene sampleInspector (Some [ENum 3]))). reflexivity.
  - apply (proj2 (show_builds_scene (set_updateOnDraw sampleInspector false)
                    (Some [ENum 3]))).
    reflexivity.
Defined.

(** X11. The [updateOnDraw] setter stores the value and touches neither the
    stage nor the overlay.  While the overlay is showing, a change of the
    value leaves the redraw handler subscribed exactly when the new value is
    true; when the overlay is not showing, or the value is the one already
    set, the subscription stays as it is. *)
Theorem set_updateOnDraw_subscription :
  forall (this : StageInspector) (val : bool),
    _updateOnDraw (set_updateOnDraw this val) = val
    /\ _stage (set_updateOnDraw this val) = _stage this
    /\ overlay (set_updateOnDraw this val) = overlay this
    /\ (showing this = true -> val <> _updateOnDraw this ->
          drawstart (set_updateOnDraw this val) = val)
    /\ (showing this = false \/ val = _updateOnDraw this ->
          drawstart (set_updateOnDraw this val) = drawstart this).
Proof.
  intros this val. unfold set_updateOnDraw.
  destruct this as [st pf nc ct uod fl ov ds lh].
  set (s := showing _). cbn [_updateOnDraw].
  split; [|split; [|split; [|split]]].
  - destruct s, val, uod; reflexivity.
  - destruct s, val, uod; reflexivity.
  - destruct s, val, uod; reflexivity.
  - intros -> Hne. destruct val, uod; try reflexivity; now destruct Hne.
  - intros [->| ->]; [destruct val, uod; reflexivity|].
    destruct s, uod; reflexivity.
Qed.

Lemma set_updateOnDraw_subscription_witness :
  drawstart (set_updateOnDraw (show sampleInspector None) false) = false
  /\ drawstart (set_updateOnDraw sampleInspector false) = drawstart sampleInspector.
Proof.
  split.
  - apply (proj1 (proj2 (proj2 (proj2
             (set_updateOnDraw_subscription (show sampleInspector None) false))))).
    + vm_compute. reflexivity.
    + vm_compute. discriminate.
  - apply (proj2 (proj2 (proj2 (proj2
             (set_updateOnDraw_subscription sampleInspector false))))).
    left. vm_compute. reflexivity.
Defined.

Lemma reachable_attached_once_witness :
  attached_once
    (hide (on_drawstart (app_addChild (show sampleInspector (Some [ENum 3])) sizedShape))).
Proof.
  apply reachable_attached_once.
  apply reach_hide, reach_drawstart, reach_addChild, reach_show.
  unfold sampleInspector. apply reach_new. repeat constructor.
Defined.

(** ** Filters and property filters at their edges *)

Lemma annotate_excluded this container obj nestLevel :
  includeObj (_filters this) obj = false ->
  annotate this container obj nestLevel = container.
Proof. intros H. unfold annotate. now rewrite H. Qed.

(** X13. When no node of a subtree passes the filter array, the build adds
    nothing for that subtree; with an empty filter array the rebuilt overlay
    is empty. *)
Theorem nothing_selected_nothing_drawn :
  forall (this : StageInspector),
    (forall obj container nestLevel,
        (forall n, In n (preorder obj) -> includeObj (_filters this) n = false) ->
        _addObjectToContainer this container obj nestLevel = container)
    /\ (_filters this = Some [] -> overlay (_updateDisplay this) = []).
Proof.
  intros this.
  assert (Hsub : forall obj container nestLevel,
             (forall n, In n (preorder obj) -> includeObj (_filters this) n = false) ->
             _addObjectToContainer this container obj nestLevel = container).
  { intros obj.
    induction obj as [r c i n f b fb cf | r c i n f cs b fb cf IH]
      using DisplayObject_ind; intros container nestLevel Hnone;
      rewrite addObjectToContainer_eq; unfold childList; cbn [children flat_map];
      rewrite (annotate_excluded this [] _ _ (Hnone _ (or_introl eq_refl))).
    - now rewrite app_nil_r.
    - rewrite flat_map_nil_Forall; [now rewrite app_nil_r|].
      rewrite List.Forall_forall in IH. rewrite List.Forall_forall.
      intros x Hx. apply (IH x Hx). intros m Hm. apply Hnone.
      rewrite preorder_eq. right. unfold childList. cbn [children].
      apply in_flat_map. eauto. }
  split; [exact Hsub|].
  intros Hempty. rewrite updateDisplay_overlay. apply flat_map_nil_Forall.
  rewrite List.Forall_forall. intros x _. apply Hsub. intros m _.
  now rewrite Hempty.
Qed.

Lemma nothing_selected_nothing_drawn_witness :
  _addObjectToContainer (set_filters sampleInspector (Some [EStr "zz"])) []
    groupG 0 = []
  /\ overlay (_updateDisplay (set_filters sampleInspector (Some []))) = [].
Proof.
  split.
  - apply (proj1 (nothing_selected_nothing_drawn
                    (set_filters sampleInspector (Some [EStr "zz"])))).
    vm_compute. intros m [<-|[<-|[<-|[]]]]; reflexivity.
  - apply (proj2 (nothing_selected_nothing_drawn
                    (set_filters sampleInspector (Some [])))).
    reflexivity.
Defined.

(** X14. A node that fails the filter array adds no primitive of its own, but
    the build goes through its children all the same: the overlay grows by
    the contributions of their subtrees, and an included descendant with
    bounds gets its bounds rectangle when the [bounds] key is enabled. *)
Theorem excluded_node_transparent :
  forall (this : StageInspector) (container : list prim) (obj : DisplayObject)
         (nestLevel : Z),
    includeObj (_filters this) obj = false ->
    _addObjectToContainer this container obj nestLevel
    = container
      ++ flat_map (fun child => _addObjectToContainer this [] child (nestLevel + 1))
           (childList obj)
    /\ (forall k d bounds, descends obj k d ->
          includeObj (_filters this) d = true ->
          resolveBounds d = Some bounds ->
          propFilter this "bounds" = true ->
          In (Shape (named "si_bounds_" d) (_getNestColor this (nestLevel + k)))
             (_addObjectToContainer this container obj nestLevel)).
Proof.
  intros this container obj nestLevel Hex. split.
  - rewrite addObjectToContainer_eq, (annotate_excluded this [] obj _ Hex).
    now rewrite app_nil_r.
  - intros k d bounds Hd Hi Hr Hp.
    destruct (descendant_annotated this obj k d Hd container nestLevel)
      as (before & after & ->).
    rewrite !in_app_iff. right. left.
    eapply annotate_bounds_drawn; eassumption.
Qed.

Lemma excluded_node_transparent_witness :
  In (Shape (named "si_bounds_" shapeA)
        (_getNestColor (set_filters sampleInspector (Some [EStr "a"])) (0 + 1)))
     (_addObjectToContainer (set_filters sampleInspector (Some [EStr "a"])) []
        groupG 0).
Proof.
  refine (proj2 (excluded_node_transparent
                   (set_filters sampleInspector (Some [EStr "a"])) [] groupG 0 _)
            1 shapeA sampleRect _ _ _ _).
  - reflexivity.
  - apply descends_child. left. reflexivity.
  - reflexivity.
  - reflexivity.
  - vm_compute. reflexivity.
Defined.

Lemma infoPanel_nextY this obj nestColor :
  snd (infoPanel this obj nestColor)
  = lineHeight this * Z.of_nat (length (fst (infoPanel this obj nestColor)) - 1).
Proof.
  unfold infoPanel, _displayMember, _displayParentId, addChild.
  destruct (propFilter this "id"), (propFilter this "name"),
    (propFilter this "parentId"); cbn [fst snd app];
    rewrite member_step_fold; cbn [fst snd]; rewrite !length_app, length_map;
    cbn [length];
    generalize (length (List.filter (shown_key this obj) (keys obj))); intros shown;
    rewrite Nat2Z.inj_sub, Nat2Z.inj_add by lia;
    generalize (Z.of_nat shown); intros z; cbn [Z.of_nat Pos.of_succ_nat Pos.succ];
    ring.
Qed.

(** X15. With every property filter off nothing is drawn: the build leaves
    the container as it is for every object, and the rebuilt overlay is
    empty. *)
Theorem no_property_nothing_drawn :
  forall (this : StageInspector),
    (forall key, propFilter this key = false) ->
    (forall obj container nestLevel,
        _addObjectToContainer this container obj nestLevel = container)
    /\ overlay (_updateDisplay this) = [].
Proof.
  intros this Hoff.
  assert (Hpanel : forall obj c, snd (infoPanel this obj c) = 0).
  { intros obj c. rewrite infoPanel_nextY, infoPanel_lines, !Hoff.
    cbn [app length].
    replace (List.filter (shown_key this obj) (keys obj)) with (@nil string);
      [cbn; lia|].
    symmetry. induction (keys obj) as [|k ks IH]; cbn [List.filter]; [reflexivity|].
    unfold shown_key at 1. rewrite Hoff. cbn [andb]. rewrite andb_false_r.
    exact IH. }
  assert (Hown : forall obj container nestLevel,
             annotate this container obj nestLevel = container).
  { intros obj container nestLevel. unfold annotate.
    destruct (includeObj _ _); [|reflexivity].
    destruct (resolveBounds obj); [|reflexivity].
    rewrite !Hoff. specialize (Hpanel obj (_getNestColor this nestLevel)).
    destruct (infoPanel _ _ _) as [ic nextY]. cbn [snd] in Hpanel.
    now rewrite Hpanel. }
  assert (Hsub : forall obj container nestLevel,
             _addObjectToContainer this container obj nestLevel = container).
  { intros obj.
    induction obj as [r c i n f b fb cf | r c i n f cs b fb cf IH]
      using DisplayObject_ind; intros container nestLevel;
      rewrite addObjectToContainer_eq, Hown; unfold childList;
      cbn [children flat_map]; [now rewrite !app_nil_r|].
    rewrite flat_map_nil_Forall; [now rewrite !app_nil_r|].
    eapply Forall_impl; [exact IH|]. intros x Hx. apply Hx. }
  split; [exact Hsub|].
  rewrite updateDisplay_overlay. apply flat_map_nil_Forall.
  rewrite List.Forall_forall. intros x _. apply Hsub.
Qed.

(** X18. With an empty colour table the colour lookup yields undefined for
    every nesting level, without a fault. *)
Theorem getNestColor_empty_table :
  forall (this : StageInspector) (nestLevel : Z),
    nestColors this = [] -> _getNestColor this nestLevel = None.
Proof.
  intros this nestLevel H. unfold _getNestColor, array_get. rewrite H.
  cbn [length]. destruct (nestLevel >? _); [reflexivity|].
  destruct (nestLevel <? 0); [reflexivity|].
  now destruct (Z.to_nat nestLevel).
Qed.

Lemma no_property_nothing_drawn_witness :
  overlay (_updateDisplay bareInspector) = [].
Proof.
  refine (proj2 (no_property_nothing_drawn bareInspector _)).
  intros key. unfold propFilter, bareInspector. cbn [propFilters].
  now rewrite lookup_empty.
Defined.

Lemma getNestColor_empty_table_witness : _getNestColor bareInspector 2 = None.
Proof. apply (getNestColor_empty_table bareInspector 2). reflexivity. Defined.

(** ** The info panel, completed *)

Lemma not_special_iff k : not_special k = true <-> k <> "id" /\ k <> "name".
Proof.
  unfold not_special, specialKeys. cbn [existsb]. rewrite orb_false_r.
  rewrite negb_true_iff, orb_false_iff, !String.eqb_neq. reflexivity.
Qed.

(** X16. A key other than [id], [name] and [parentId] has a line in the info
    panel exactly when it is one of the node's own fields, does not start
    with an underscore, is enabled in the property filters and holds no
    object. *)
Theorem infoPanel_field_lines :
  forall (this : StageInspector) (obj : DisplayObject) (nestColor : option string)
         (k : string),
    k <> "id" -> k <> "name" -> k <> "parentId" ->
    (In (Text (memberName obj k) nestColor) (fst (infoPanel this obj nestColor))
     <-> In k (keys obj) /\ not_underscored k = true /\ propFilter this k = true
         /\ instanceof_Object (get obj k) = false).
Proof.
  intros this obj nestColor k Hid Hname Hparent.
  rewrite infoPanel_lines. split.
  - intros [Hbg|Hin]; [discriminate|].
    rewrite !in_app_iff in Hin. destruct Hin as [Hin|[Hin|[Hin|Hin]]].
    + destruct (propFilter this "id"); [|destruct Hin].
      destruct Hin as [Hin|[]]. apply (f_equal pname_of) in Hin.
      cbn [pname_of] in Hin. apply memberName_inj in Hin. congruence.
    + destruct (propFilter this "name"); [|destruct Hin].
      destruct Hin as [Hin|[]]. apply (f_equal pname_of) in Hin.
      cbn [pname_of] in Hin. apply memberName_inj in Hin. congruence.
    + destruct (propFilter this "parentId"); [|destruct Hin].
      destruct Hin as [Hin|[]]. apply (f_equal pname_of) in Hin.
      cbn [pname_of] in Hin.
      change (named "si_parentId_" obj) with (memberName obj "parentId") in Hin.
      apply memberName_inj in Hin. congruence.
    + apply in_map_iff in Hin as (k' & Heq & Hin').
      apply (f_equal pname_of) in Heq. cbn [pname_of] in Heq.
      apply memberName_inj in Heq. subst k'.
      apply List.filter_In in Hin' as [Hkeys Hshown]. unfold shown_key in Hshown.
      apply andb_prop in Hshown as [Hu Hshown]. apply andb_prop in Hu as [Hu _].
      apply andb_prop in Hshown as [Hp Hobj]. apply negb_true_iff in Hobj. auto.
  - intros (Hkeys & Hu & Hp & Hobj). right. rewrite !in_app_iff. do 3 right.
    apply in_map_iff. exists k. split; [reflexivity|].
    apply List.filter_In. split; [exact Hkeys|]. unfold shown_key.
    rewrite Hu, Hp, Hobj, (proj2 (not_special_iff k) (conj Hid Hname)).
    reflexivity.
Qed.

Lemma infoPanel_field_lines_witness :
  In (Text (memberName sizedShape "x") None)
     (fst (infoPanel sampleInspector sizedShape None)).
Proof.
  apply (proj2 (infoPanel_field_lines sampleInspector sizedShape None "x"
                  ltac:(discriminate) ltac:(discriminate) ltac:(discriminate))).
  vm_compute. tauto.
Defined.

Lemma infoPanel_has_background this obj nestColor :
  exists lines, fst (infoPanel this obj nestColor) = Shape None None :: lines.
Proof. rewrite infoPanel_lines. eexists. reflexivity. Qed.

(** X17. For an included node with bounds the info panel is attached, as the
    last primitive of the node, when the vertical offset after its last line
    is positive; otherwise no container is attached for the node.  That
    offset is zero when the panel has no line or when lines measure zero, and
    positive when lines have a positive height and there is at least one, so
    that a panel without lines, or with lines of zero height, is not shown. *)
Theorem infoPanel_attached_when_positive :
  forall (this : StageInspector) (obj : DisplayObject) (nestLevel : Z)
         (bounds : Rectangle),
    includeObj (_filters this) obj = true ->
    resolveBounds obj = Some bounds ->
    let panel := infoPanel this obj (_getNestColor this nestLevel) in
    (0 < snd panel ->
       List.last (annotate this [] obj nestLevel) (Shape None None)
       = Container (named "si_infoContainer_" obj) (_drawInfoBackground (fst panel)))
    /\ (snd panel <= 0 ->
          Forall (fun p => forall n ch, p <> Container n ch)
            (annotate this [] obj nestLevel))
    /\ (fst panel = [Shape None None] -> snd panel = 0)
    /\ (lineHeight this = 0 -> snd panel = 0)
    /\ (0 < lineHeight this -> fst panel <> [Shape None None] -> 0 < snd panel).
Proof.
  intros this obj nestLevel bounds Hi Hb panel. subst panel.
  pose proof (infoPanel_nextY this obj (_getNestColor this nestLevel)) as Hy.
  destruct (infoPanel_has_background this obj (_getNestColor this nestLevel))
    as (lines & Hlines).
  assert (Hattach :
    (0 < snd (infoPanel this obj (_getNestColor this nestLevel)) ->
       List.last (annotate this [] obj nestLevel) (Shape None None)
       = Container (named "si_infoContainer_" obj)
           (_drawInfoBackground (fst (infoPanel this obj (_getNestColor this nestLevel)))))
    /\ (snd (infoPanel this obj (_getNestColor this nestLevel)) <= 0 ->
          Forall (fun p => forall n ch, p <> Container n ch)
            (annotate this [] obj nestLevel))).
  { unfold annotate. rewrite Hi, Hb.
    unfold _displayBounds, _displayPos, _displayRegPos, _displayWidth,
      _displayHeight, addChild.
    destruct (infoPanel _ _ _) as [infoContainer nextY]. cbn [fst snd].
    split; intros Hpos.
    - destruct (Z.gtb_spec nextY 0); [|lia].
      destruct (propFilter this "bounds"), (propFilter this "pos"),
        (propFilter this "regPos"), (propFilter this "width"),
        (propFilter this "height"); reflexivity.
    - destruct (Z.gtb_spec nextY 0); [lia|].
      destruct (propFilter this "bounds"), (propFilter this "pos"),
        (propFilter this "regPos"), (propFilter this "width"),
        (propFilter this "height"); cbn [app];
        repeat (constructor; [intros ? ?; discriminate|]); constructor. }
  destruct Hattach as [Hlast Hnone].
  split; [exact Hlast|]. split; [exact Hnone|].
  rewrite Hy, Hlines. cbn [length]. rewrite Nat.sub_succ, Nat.sub_0_r.
  split; [|split].
  - intros Hone. injection Hone as ->. cbn [length]. lia.
  - intros ->. lia.
  - intros Hlh Hsome. destruct lines as [|l lines]; [now destruct Hsome|].
    cbn [length]. lia.
Qed.

Lemma infoPanel_attached_when_positive_witness :
  List.last (annotate sampleInspector [] shapeA 1) (Shape None None)
  = Container (named "si_infoContainer_" shapeA)
      (_drawInfoBackground
         (fst (infoPanel sampleInspector shapeA (_getNestColor sampleInspector 1)))).
Proof.
  refine (proj1 (infoPanel_attached_when_positive sampleInspector shapeA 1
                   sampleRect _ _) _).
  - reflexivity.
  - reflexivity.
  - vm_compute. reflexivity.
Defined.

(** ** The console dump, completed *)

Lemma dump_forEach_resolved this (objs : list entry) :
  Forall (fun e => resolve this e <> None) objs ->
  forall out,
    dump_forEach this objs out = Completed (out ++ flat_map (entry_report this) objs).
Proof.
  induction 1 as [|e objs He _ IH]; intros out; cbn [dump_forEach flat_map].
  - now rewrite app_nil_r.
  - unfold entry_report at 1. destruct (resolve this e) as [o|]; [|now destruct He].
    now rewrite IH, <- app_assoc.
Qed.

Lemma dump_forEach_miss this (l1 : list entry) e l2 :
  Forall (fun e => resolve this e <> None) l1 ->
  resolve this e = None ->
  forall out,
    dump_forEach this (l1 ++ e :: l2) out
    = Faulted (out ++ flat_map (entry_report this) l1).
Proof.
  intros Hl1 He. induction Hl1 as [|x l1 Hx _ IH]; intros out;
    cbn [app dump_forEach flat_map].
  - now rewrite He, app_nil_r.
  - unfold entry_report at 1. destruct (resolve this x) as [o|]; [|now destruct Hx].
    now rewrite IH, <- app_assoc.
Qed.

(** X19. [dump(objects)] completes when every entry of the array resolves to
    an object: it writes the group [Display objects] with one expanded report
    per entry, in the order of the array, and closes it; for an empty array
    the group is empty.  At the first entry that resolves to nothing it ends
    in a fault: the entries before it have been reported, those after it are
    not, and the group is not closed. *)
Theorem dump_entries :
  forall (this : StageInspector) (objs : list entry),
    (Forall (fun e => resolve this e <> None) objs ->
       dump this (Some objs)
       = Completed ([group "Display objects"] ++ flat_map (entry_report this) objs
                    ++ [groupEnd]))
    /\ (forall l1 e l2, objs = l1 ++ e :: l2 ->
          Forall (fun e => resolve this e <> None) l1 ->
          resolve this e = None ->
          dump this (Some objs)
          = Faulted ([group "Display objects"] ++ flat_map (entry_report this) l1))
    /\ dump this (Some []) = Completed [group "Display objects"; groupEnd].
Proof.
  intros this objs. split; [|split].
  - intros H. unfold dump. rewrite (dump_forEach_resolved this objs H).
    now rewrite <- app_assoc.
  - intros l1 e l2 -> Hl1 He. unfold dump.
    now rewrite (dump_forEach_miss this l1 e l2 Hl1 He).
  - reflexivity.
Qed.

Lemma dump_entries_witness :
  dump sampleInspector (Some ([ENum 3] ++ EStr "nobody" :: [ENum 4]))
  = Faulted ([group "Display objects"] ++ flat_map (entry_report sampleInspector) [ENum 3]).
Proof.
  refine (proj1 (proj2 (dump_entries sampleInspector _)) [ENum 3] (EStr "nobody")
            [ENum 4] eq_refl _ _).
  - constructor; [|constructor]. vm_compute. discriminate.
  - vm_compute. reflexivity.
Defined.

(** X20. The click handler of click-to-dump never faults: the objects under
    the pointer are dumped, one expanded report each inside the group
    [Display objects], and the propagation of the event is stopped. *)
Theorem clickToDumpListener_completes :
  forall (this : StageInspector) (underPoint : list DisplayObject),
    _clickToDumpListener this underPoint
    = (Completed
         ([group "Display objects"]
          ++ flat_map (fun o => _dumpObject this o (_getObjectDisplayName o) true)
               underPoint
          ++ [groupEnd]),
       true).
Proof.
  intros this underPoint. unfold _clickToDumpListener, dump.
  assert (Hreports : flat_map (entry_report this) (map EObj underPoint)
                     = flat_map (fun o => _dumpObject this o (_getObjectDisplayName o) true)
                         underPoint).
  { induction underPoint as [|o l IH]; cbn [map flat_map]; [reflexivity|].
    now rewrite IH. }
  rewrite dump_forEach_resolved.
  - now rewrite <- app_assoc, Hreports.
  - clear Hreports.
    induction underPoint as [|o l IH]; cbn [map]; constructor; [discriminate|exact IH].
Qed.





Lemma refs_logged_app (a b : list event) :
  refs_logged (a ++ b) = refs_logged a ++ refs_logged b.
Proof. unfold refs_logged. apply flat_map_app. Qed.

Lemma refs_logged_dumpFields obj : refs_logged (dumpFields obj) = [].
Proof. reflexivity. Qed.

Lemma preorder_outside_eq c obj :
  preorder_outside c obj
  = if same_object c obj then []
    else obj :: flat_map (preorder_outside c) (childList obj).
Proof. destruct obj as [r cl i n f [cs|] b fb cf]; reflexivity. Qed.

(** X22. A report of [_dumpObject] logs the reference of every node of the
    dumped tree once, in depth-first pre-order, except for the overlay layer
    and what lies below it; on a tree that does not hold the overlay layer
    these are all its nodes. *)
Theorem dumpObject_preorder :
  forall (this : StageInspector) (obj : DisplayObject) (label : string)
         (expand : bool),
    refs_logged (_dumpObject this obj label expand)
    = map ref (preorder_outside (_container this) obj)
    /\ ((forall n, In n (preorder obj) -> same_object (_container this) n = false) ->
        refs_logged (_dumpObject this obj label expand) = map ref (preorder obj)).
Proof.
  intros this obj.
  assert (Hlog : forall label expand,
             refs_logged (_dumpObject this obj label expand)
             = map ref (preorder_outside (_container this) obj)).
  { induction obj as [r c i n f b fb cf | r c i n f cs b fb cf IH]
      using DisplayObject_ind; intros label expand;
      rewrite dumpObject_eq, preorder_outside_eq;
      (destruct (same_object _ _); [reflexivity|]);
      unfold childList; cbn [children flat_map];
      rewrite !refs_logged_app, refs_logged_dumpFields.
    - destruct expand; reflexivity.
    - assert (Hkids : refs_logged
                        (flat_map (fun child =>
                           _dumpObject this child (_getObjectDisplayName child) false) cs)
                      = map ref (flat_map (preorder_outside (_container this)) cs)).
      { induction IH as [|x l Hx _ IHl]; cbn [flat_map]; [reflexivity|].
        rewrite refs_logged_app, List.map_app, Hx, IHl. reflexivity. }
      rewrite Hkids. unfold refs_logged.
      destruct expand; cbn [flat_map app map]; now rewrite ?app_nil_r. }
  intros label expand. split; [apply Hlog|].
  intros Hfree. rewrite Hlog. f_equal. clear Hlog label expand.
  induction obj as [r c i n f b fb cf | r c i n f cs b fb cf IH]
    using DisplayObject_ind; rewrite preorder_outside_eq, preorder_eq;
    rewrite (Hfree _ (or_introl eq_refl)); unfold childList; cbn [children flat_map];
    [reflexivity|].
  f_equal. apply flat_map_ext_Forall. rewrite List.Forall_forall in IH.
  rewrite List.Forall_forall. intros x Hx. apply (IH x Hx).
  intros m Hm. apply Hfree. right. apply in_flat_map. eauto.
Qed.

Lemma dumpObject_preorder_witness :
  refs_logged (_dumpObject sampleInspector sampleStage "Stage (id=1)" true)
  = map ref (preorder sampleStage).
Proof.
  apply (proj2 (dumpObject_preorder sampleInspector sampleStage "Stage (id=1)" true)).
  vm_compute. intros n [<-|[<-|[<-|[<-|[<-|[]]]]]]; reflexivity.
Defined.

(** ** Click to dump *)

Lemma enableClickToDump_unfold p :
  _dumpListeners p = None ->
  enableClickToDump p
  = mkPointer (capture p ++ inspectorSubscriptions (nextListener p))
      (7 + nextListener p)
      (Some (map (fun s => (s_type s, s_listener s))
               (inspectorSubscriptions (nextListener p)))).
Proof.
  destruct p as [cap n dl]. cbn [_dumpListeners]. intros ->.
  unfold enableClickToDump, suppressEvents, stage_on, push_dumpListener,
    set_dumpListeners, inspectorSubscriptions.
  cbn [_dumpListeners capture nextListener fold_left app map s_type s_listener
       Nat.add].
  rewrite <- !app_assoc. reflexivity.
Qed.

Lemma handlers_for_app cap nxt dl (l : list subscription) type :
  handlers_for (mkPointer (cap ++ l) nxt dl) type
  = map s_handler (List.filter (fun s => String.eqb (s_type s) type) cap)
    ++ map s_handler (List.filter (fun s => String.eqb (s_type s) type) l).
Proof.
  unfold handlers_for. cbn [capture]. now rewrite List.filter_app, List.map_app.
Qed.

(** X23. [enableClickToDump] subscribes its click handler and its
    suppressing handler behind the capture listeners the stage has: after it,
    a click runs those listeners and then [_clickToDumpListener], each of the
    six suppressed pointer events runs them and then [_suppressEvent], and
    any other event runs what it ran before.  A second call does nothing. *)
Theorem enableClickToDump_handlers :
  forall (p : Pointer),
    _dumpListeners p = None ->
    handlers_for (enableClickToDump p) "click"
    = handlers_for p "click" ++ [clickToDumpListener]
    /\ (forall type, In type suppressEvents ->
          handlers_for (enableClickToDump p) type
          = handlers_for p type ++ [suppressEvent])
    /\ (forall type, type <> "click" -> ~ In type suppressEvents ->
          handlers_for (enableClickToDump p) type = handlers_for p type)
    /\ enableClickToDump (enableClickToDump p) = enableClickToDump p.
Proof.
  intros p Hnone. rewrite (enableClickToDump_unfold p Hnone).
  split; [|split; [|split]].
  - rewrite handlers_for_app. reflexivity.
  - intros type Hin. rewrite handlers_for_app. unfold suppressEvents in Hin.
    cbn [In] in Hin.
    destruct Hin as [<-|[<-|[<-|[<-|[<-|[<-|[]]]]]]]; reflexivity.
  - intros type Hclick Hsupp. rewrite handlers_for_app.
    unfold suppressEvents in Hsupp. cbn [In] in Hsupp.
    unfold inspectorSubscriptions. cbn [List.filter s_type].
    repeat match goal with
           | |- context [String.eqb ?a type] =>
               destruct (String.eqb_spec a type) as [Heq|_];
               [exfalso; subst type; tauto|]
           end.
    cbn [map]. apply app_nil_r.
  - reflexivity.
Qed.

Lemma enableClickToDump_handlers_witness :
  handlers_for (enableClickToDump samplePointer) "click"
  = handlers_for samplePointer "click" ++ [clickToDumpListener]
  /\ handlers_for (enableClickToDump samplePointer) "mousedown"
     = handlers_for samplePointer "mousedown" ++ [suppressEvent].
Proof.
  split.
  - apply (proj1 (enableClickToDump_handlers samplePointer eq_refl)).
  - apply (proj1 (proj2 (enableClickToDump_handlers samplePointer eq_refl))).
    vm_compute. tauto.
Defined.

Lemma unsubscribe_behind cap (l : list subscription) type listener n :
  Forall (fun s => (s_listener s < n)%nat) cap ->
  (n <= listener)%nat ->
  unsubscribe type listener (cap ++ l) = cap ++ unsubscribe type listener l.
Proof.
  intros Hcap Hn. induction Hcap as [|s cap Hs _ IH]; cbn [app unsubscribe];
    [reflexivity|].
  unfold is_subscription at 1.
  destruct (Nat.eqb_spec (s_listener s) listener); [lia|].
  rewrite andb_false_r. now rewrite IH.
Qed.

(** X24. [disableClickToDump] takes out what [enableClickToDump] subscribed
    and nothing else: when every listener of the stage was created before,
    enabling and then disabling leaves the capture listeners of the stage as
    they were and [_dumpListeners] null.  Without click-to-dump enabled,
    [disableClickToDump] does nothing, so that a second call changes
    nothing. *)
Theorem disableClickToDump_undoes_enable :
  forall (p : Pointer),
    (_dumpListeners p = None -> disableClickToDump p = p)
    /\ disableClickToDump (disableClickToDump p) = disableClickToDump p
    /\ (listeners_known p -> _dumpListeners p = None ->
          disableClickToDump (enableClickToDump p)
          = mkPointer (capture p) (7 + nextListener p) None).
Proof.
  intros p. split; [|split].
  - unfold disableClickToDump. now intros ->.
  - unfold disableClickToDump at 2 3. destruct (_dumpListeners p) eqn:Hd; [reflexivity|].
    unfold disableClickToDump. now rewrite Hd.
  - intros Hknown Hnone. rewrite (enableClickToDump_unfold p Hnone).
    unfold listeners_known in Hknown. destruct p as [cap n dl].
    cbn [capture nextListener] in *.
    unfold disableClickToDump, inspectorSubscriptions, stage_off, set_dumpListeners.
    cbn [_dumpListeners map s_type s_listener fold_left fst snd capture nextListener].
    repeat (rewrite (unsubscribe_behind cap _ _ _ n Hknown) by lia;
            cbn [unsubscribe]; unfold is_subscription; cbn [s_type s_listener];
            rewrite String.eqb_refl, Nat.eqb_refl; cbn [andb]).
    now rewrite app_nil_r.
Qed.

Lemma disableClickToDump_undoes_enable_witness :
  disableClickToDump (enableClickToDump samplePointer)
  = mkPointer (capture samplePointer) (7 + nextListener samplePointer) None.
Proof.
  apply (proj2 (proj2 (disableClickToDump_undoes_enable samplePointer))).
  - repeat constructor.
  - reflexivity.
Defined.

(** ** A new inspector *)

(** X25. An inspector built on a stage that has a child list and does not
    hold the new container is hidden: live refresh is on, no filter is set,
    the overlay is empty, nothing is subscribed, [showing] is false and
    [hide()] changes nothing. *)
Theorem constructor_hidden :
  forall (stage : DisplayObject) (r : nat) (i lh : Z),
    Forall (fun c => Nat.eqb (ref c) r = false) (childList stage) ->
    children stage <> None ->
    let this := constructor stage r i lh in
    _updateOnDraw this = true
    /\ _filters this = None
    /\ Hidden this
    /\ showing this = false
    /\ hide this = this.
Proof.
  intros stage r i lh Hfresh Hchildren this. subst this.
  assert (Habsent : Forall (fun c => same_object c (newContainer r i) = false)
                      (childList stage)) by exact Hfresh.
  split; [reflexivity|]. split; [reflexivity|]. split; [|split].
  - split; [reflexivity|]. split; [exact Habsent|reflexivity].
  - now apply showing_absent.
  - unfold hide, constructor.
    cbn [_updateOnDraw set_drawstart set_overlay set_stage _stage _container
         propFilters nestColors _filters overlay drawstart lineHeight].
    rewrite (removeChild_absent _ _ Habsent). f_equal.
    unfold set_children, childList.
    destruct stage as [rs c ids n f [cs|] b fb cf]; [reflexivity|].
    now destruct Hchildren.
Qed.

Lemma constructor_hidden_witness :
  showing (constructor sampleStage 100 99 12) = false
  /\ hide (constructor sampleStage 100 99 12) = constructor sampleStage 100 99 12.
Proof.
  assert (H : Forall (fun c => Nat.eqb (ref c) 100 = false) (childList sampleStage))
    by (repeat constructor).
  assert (H' : children sampleStage <> None) by discriminate.
  split.
  - apply (proj1 (proj2 (proj2 (proj2 (constructor_hidden sampleStage 100 99 12 H H'))))).
  - apply (proj2 (proj2 (proj2 (proj2 (constructor_hidden sampleStage 100 99 12 H H'))))).
Defined.

(** ** The subscription when only the inspector touches the stage *)

Lemma showing_show this filters : showing (show this filters) = true.
Proof.
  destruct (show_stage this filters) as [Hst Hct].
  assert (H : childList (_stage (show this filters))
              = removeChild (removeChild (childList (_stage this)) (_container this))
                  (_container this) ++ [_container this]).
  { rewrite Hst. reflexivity. }
  rewrite (showing_last _ _ _ H), Hct. apply same_object_refl.
Qed.

Lemma constructor_attached_once stage r i lh :
  Forall (fun c => Nat.eqb (ref c) r = false) (childList stage) ->
  attached_once (constructor stage r i lh).
Proof.
  intros Hfresh. unfold attached_once. cbn [constructor _stage _container].
  induction Hfresh as [|c cs Hc _ IHf]; cbn [List.filter length]; [lia|].
  change (same_object c (newContainer r i)) with (Nat.eqb (ref c) r).
  rewrite Hc. exact IHf.
Qed.

Lemma showing_same_stage a b :
  _stage a = _stage b -> _container a = _container b -> showing a = showing b.
Proof. unfold showing. now intros -> ->. Qed.

(** While nothing but the inspector and the redraws touch the stage, the
    redraw handler is subscribed only when the overlay is showing in live
    mode, and the overlay layer is on the stage at most once. *)
Lemma alone_subscribed_showing_live this :
  reachable_alone this ->
  attached_once this
  /\ (drawstart this = true -> showing this = true /\ _updateOnDraw this = true).
Proof.
  induction 1 as [stage r i lh Hfresh | this filters Hr IH | this Hr IH
                 | this val Hr IH | this Hr IH].
  - split; [|discriminate]. now apply constructor_attached_once.
  - destruct IH as [Honce IH]. split.
    + unfold attached_once. destruct (show_stage this filters) as [-> ->].
      apply occurrences_addChild.
      etransitivity; [apply occurrences_removeChild_le|exact Honce].
    + intros Hds. split; [apply showing_show|].
      rewrite show_unfold in Hds |- *. cbn zeta in *.
      cbn [drawstart _updateOnDraw] in *.
      destruct (_updateOnDraw this); [reflexivity|].
      now destruct (IH Hds).
  - destruct IH as [Honce IH]. split.
    + unfold attached_once. destruct (hide_stage this) as [-> ->].
      etransitivity; [apply occurrences_removeChild_le|exact Honce].
    + intros Hds. exfalso.
      destruct this as [st pf nc ct [|] fl ov ds lh]; [discriminate|].
      cbn in Hds. now destruct (IH Hds).
  - destruct IH as [Honce IH].
    destruct (set_updateOnDraw_stage this val) as [Hst Hct]. split.
    + unfold attached_once. now rewrite Hst, Hct.
    + rewrite (showing_same_stage _ this Hst Hct).
      unfold set_updateOnDraw.
      destruct this as [st pf nc ct uod fl ov ds lh].
      cbn [_updateOnDraw drawstart] in *.
      destruct (showing _) eqn:Hs; cbn [andb];
        destruct val, uod, ds; cbn; intros Hds; try discriminate;
        try (split; reflexivity); now destruct (IH eq_refl).
  - destruct IH as [Honce IH].
    destruct (on_drawstart_stage this) as [Hst Hct]. split.
    + unfold attached_once. now rewrite Hst, Hct.
    + rewrite (showing_same_stage _ this Hst Hct). unfold on_drawstart.
      destruct (drawstart this) eqn:Hd; [|now rewrite Hd].
      intros _. destruct (IH eq_refl) as [Hs Hu]. split; [exact Hs|].
      destruct this; exact Hu.
Qed.

(** While nothing but the inspector and the redraws touch the stage,
    [hide()] leaves no redraw subscription. *)
Lemma alone_hide_unsubscribed this :
  reachable_alone this -> drawstart (hide this) = false.
Proof.
  intros Hr. destruct (alone_subscribed_showing_live this Hr) as [_ H].
  destruct this as [st pf nc ct [|] fl ov [|] lh]; try reflexivity.
  now destruct (H eq_refl).
Qed.
